(** * DateRangeInput2: controlled/uncontrolled date-range input

    A shallow embedding of the state logic of
    [packages/datetime2/src/components/date-range-input2/dateRangeInput2.tsx].

    The component is a class whose methods read [this.props] and [this.state],
    call [this.setState] with a partial state, and invoke the optional
    callbacks [props.onChange] / [props.onError].  Here every method is a
    function of the props and the state it reads; an event handler returns the
    state after its [setState] together with the list of callback invocations
    it issued, in order. *)

From Stdlib Require Import ZArith String DecimalString List Bool Lia.
Import ListNotations.
Local Open Scope string_scope.
Local Open Scope list_scope.
Local Open Scope Z_scope.

(** ** JavaScript values *)

(** A value of type [T | null | undefined].  The source distinguishes the two
    empty values in places ([=== undefined], [=== null]) and conflates them in
    others ([== null], [??]). *)
Inductive maybe (T : Type) : Type :=
| undefined : maybe T
| null : maybe T
| val : T -> maybe T.
Arguments undefined {T}.
Arguments null {T}.
Arguments val {T} _.

(** [x == null] *)
Definition isNullish {T} (x : maybe T) : bool :=
  match x with
  | val _ => false
  | _ => true
  end.

(** [x ?? null] for a bound of type [Date | null | undefined] *)
Definition orNull {T} (x : maybe T) : option T :=
  match x with
  | val v => Some v
  | _ => None
  end.

(** Injection of a [T | null] into [T | null | undefined]. *)
Definition ofNullable {T} (x : option T) : maybe T :=
  match x with
  | Some v => val v
  | None => null
  end.

(** ** Dates *)

(** A JavaScript [Date] holds a time value in milliseconds since the epoch, or
    NaN ("Invalid Date", as produced by [new Date(undefined)]). *)
Inductive Date : Type :=
| InvalidDate : Date
| MkDate (time : Z) : Date.

(** [a > b] and [a < b] on [Date] objects compare the time values; every
    comparison with NaN is false. *)
Definition Date_gt (a b : Date) : bool :=
  match a, b with
  | MkDate t, MkDate u => u <? t
  | _, _ => false
  end.

Definition Date_lt (a b : Date) : bool :=
  match a, b with
  | MkDate t, MkDate u => t <? u
  | _, _ => false
  end.

Definition Date_le (a b : Date) : bool :=
  match a, b with
  | MkDate t, MkDate u => t <=? u
  | _, _ => false
  end.

(** The host environment: the clock read by [new Date()] and the offset of
    local time from UTC, in milliseconds, which fixes where local days begin. *)
Record Host : Type := {
  clock : Z;
  utcOffset : Z;
}.

Definition msPerDay : Z := 86400000.

(** [new Date()] *)
Definition now (h : Host) : Date := MkDate (clock h).

(** [date.setHours(0, 0, 0, 0)] / date-fns [startOfDay]: local midnight of the
    day containing the time value. *)
Definition startOfDay (h : Host) (d : Date) : Date :=
  match d with
  | InvalidDate => InvalidDate
  | MkDate t => MkDate (t - (t + utcOffset h) mod msPerDay)
  end.

(** date-fns [isValid]: false for [null], false for an Invalid Date. *)
Definition isValid (date : option Date) : bool :=
  match date with
  | Some (MkDate _) => true
  | _ => false
  end.

(** date-fns [isSameDay]: the two local midnights have the same time value
    ([NaN === NaN] is false). *)
Definition isSameDay (h : Host) (a b : Date) : bool :=
  match startOfDay h a, startOfDay h b with
  | MkDate t, MkDate u => t =? u
  | _, _ => false
  end.

(** The index of the local calendar day a time value falls on. *)
Definition calendarDay (h : Host) (t : Z) : Z := (t + utcOffset h) / msPerDay.

(** ** Props and state *)

Inductive Boundary : Type := START | END.

(** [DateRange = [Date | null, Date | null]] *)
Definition DateRange : Type := (option Date * option Date)%type.

(** [NonNullDateRange = [Date, Date]] *)
Definition NonNullDateRange : Type := (Date * Date)%type.

(** The [value] prop: absent, literally [null], or a range. *)
Inductive ValueProp : Type :=
| VUndefined : ValueProp
| VNull : ValueProp
| VRange (range : DateRange) : ValueProp.

(** What the injected [parseDate] returns: [Date | false | null]. *)
Inductive Parsed : Type :=
| PFalse : Parsed
| PNull : Parsed
| PDate (d : Date) : Parsed.

Module Props.
(** The props read by the modelled methods, after [defaultProps] have been
    applied. *)
Record t : Type := {
  allowSingleDayRange : bool;
  defaultValue : maybe DateRange;
  value : ValueProp;
  minDate : Date;
  maxDate : Date;
  invalidDateMessage : string;
  outOfRangeMessage : string;
  overlappingDatesMessage : string;
  selectAllOnFocus : bool;
  locale : maybe string;
  parseDate : maybe string -> maybe string -> Parsed;
  formatDate : Date -> maybe string -> string;
}.
End Props.

Module State.
(** [DateRangeInput2State] *)
Record t : Type := {
  isOpen : bool;
  boundaryToModify : option Boundary;
  lastFocusedField : option Boundary;
  formattedMinDateString : string;
  formattedMaxDateString : string;
  isStartInputFocused : bool;
  isEndInputFocused : bool;
  startInputString : maybe string;
  endInputString : maybe string;
  startHoverString : maybe string;
  endHoverString : maybe string;
  selectedEnd : option Date;
  selectedStart : option Date;
  shouldSelectAfterUpdate : option bool;
  wasLastFocusChangeDueToHover : option bool;
  selectedShortcutIndex : Z;
}.
End State.

(** One entry of the partial state object handed to [setState].  The
    per-boundary entries stand for the computed keys [[keys.inputString]],
    [[keys.hoverString]], [[keys.isInputFocused]] and [[keys.selectedValue]]. *)
Inductive Assignment : Type :=
| set_isOpen (v : bool)
| set_lastFocusedField (v : option Boundary)
| set_boundaryToModify (v : option Boundary)
| set_isInputFocused (b : Boundary) (v : bool)
| set_inputString (b : Boundary) (v : maybe string)
| set_hoverString (b : Boundary) (v : maybe string)
| set_selectedValue (b : Boundary) (v : option Date)
| set_shouldSelectAfterUpdate (v : option bool)
| set_wasLastFocusChangeDueToHover (v : option bool).

Definition assign (st : State.t) (a : Assignment) : State.t :=
  let '(State.Build_t isOpen boundaryToModify lastFocusedField fmin fmax
          isStartInputFocused isEndInputFocused startInputString endInputString
          startHoverString endHoverString selectedEnd selectedStart
          shouldSelectAfterUpdate wasLastFocusChangeDueToHover shortcut) := st in
  match a with
  | set_isOpen v =>
      State.Build_t v boundaryToModify lastFocusedField fmin fmax
        isStartInputFocused isEndInputFocused startInputString endInputString
        startHoverString endHoverString selectedEnd selectedStart
        shouldSelectAfterUpdate wasLastFocusChangeDueToHover shortcut
  | set_lastFocusedField v =>
      State.Build_t isOpen boundaryToModify v fmin fmax
        isStartInputFocused isEndInputFocused startInputString endInputString
        startHoverString endHoverString selectedEnd selectedStart
        shouldSelectAfterUpdate wasLastFocusChangeDueToHover shortcut
  | set_boundaryToModify v =>
      State.Build_t isOpen v lastFocusedField fmin fmax
        isStartInputFocused isEndInputFocused startInputString endInputString
        startHoverString endHoverString selectedEnd selectedStart
        shouldSelectAfterUpdate wasLastFocusChangeDueToHover shortcut
  | set_isInputFocused START v =>
      State.Build_t isOpen boundaryToModify lastFocusedField fmin fmax
        v isEndInputFocused startInputString endInputString
        startHoverString endHoverString selectedEnd selectedStart
        shouldSelectAfterUpdate wasLastFocusChangeDueToHover shortcut
  | set_isInputFocused END v =>
      State.Build_t isOpen boundaryToModify lastFocusedField fmin fmax
        isStartInputFocused v startInputString endInputString
        startHoverString endHoverString selectedEnd selectedStart
        shouldSelectAfterUpdate wasLastFocusChangeDueToHover shortcut
  | set_inputString START v =>
      State.Build_t isOpen boundaryToModify lastFocusedField fmin fmax
        isStartInputFocused isEndInputFocused v endInputString
        startHoverString endHoverString selectedEnd selectedStart
        shouldSelectAfterUpdate wasLastFocusChangeDueToHover shortcut
  | set_inputString END v =>
      State.Build_t isOpen boundaryToModify lastFocusedField fmin fmax
        isStartInputFocused isEndInputFocused startInputString v
        startHoverString endHoverString selectedEnd selectedStart
        shouldSelectAfterUpdate wasLastFocusChangeDueToHover shortcut
  | set_hoverString START v =>
      State.Build_t isOpen boundaryToModify lastFocusedField fmin fmax
        isStartInputFocused isEndInputFocused startInputString endInputString
        v endHoverString selectedEnd selectedStart
        shouldSelectAfterUpdate wasLastFocusChangeDueToHover shortcut
  | set_hoverString END v =>
      State.Build_t isOpen boundaryToModify lastFocusedField fmin fmax
        isStartInputFocused isEndInputFocused startInputString endInputString
        startHoverString v selectedEnd selectedStart
        shouldSelectAfterUpdate wasLastFocusChangeDueToHover shortcut
  | set_selectedValue START v =>
      State.Build_t isOpen boundaryToModify lastFocusedField fmin fmax
        isStartInputFocused isEndInputFocused startInputString endInputString
        startHoverString endHoverString selectedEnd v
        shouldSelectAfterUpdate wasLastFocusChangeDueToHover shortcut
  | set_selectedValue END v =>
      State.Build_t isOpen boundaryToModify lastFocusedField fmin fmax
        isStartInputFocused isEndInputFocused startInputString endInputString
        startHoverString endHoverString v selectedStart
        shouldSelectAfterUpdate wasLastFocusChangeDueToHover shortcut
  | set_shouldSelectAfterUpdate v =>
      State.Build_t isOpen boundaryToModify lastFocusedField fmin fmax
        isStartInputFocused isEndInputFocused startInputString endInputString
        startHoverString endHoverString selectedEnd selectedStart
        v wasLastFocusChangeDueToHover shortcut
  | set_wasLastFocusChangeDueToHover v =>
      State.Build_t isOpen boundaryToModify lastFocusedField fmin fmax
        isStartInputFocused isEndInputFocused startInputString endInputString
        startHoverString endHoverString selectedEnd selectedStart
        shouldSelectAfterUpdate v shortcut
  end.

(** [this.setState(nextState)]: the entries of the partial state overwrite the
    fields they name, later entries of an object literal winning. *)
Definition setState (st : State.t) (nextState : list Assignment) : State.t :=
  fold_left assign nextState st.

(** An invocation of one of the optional output callbacks,
    [this.props.onChange?.(range)] or [this.props.onError?.(range)]. *)
Inductive Callback : Type :=
| onChange (selectedRange : DateRange)
| onError (errorRange : DateRange).

(** ** Collaborators outside the component file *)

(** Modelled from the spec: [isDayInRange] of [common/dateUtils] is imported by
    the component but is not among the sources.  The spec describes it as the
    test that a date "falls within [minDate, maxDate] (inclusive)"; the
    comparison is made on local days, so the three dates are first moved to
    their local midnight.  A [null] date is in no range. *)
Definition isDayInRange (h : Host) (date : option Date) (dateRange : NonNullDateRange) : bool :=
  match date with
  | None => false
  | Some d =>
      let day := startOfDay h d in
      let start := startOfDay h (fst dateRange) in
      let end_ := startOfDay h (snd dateRange) in
      Date_le start day && Date_le day end_
  end.

(** Modelled from the spec: [DatePickerUtils.getFormattedDateString] is
    imported from the date picker package and is not among the sources.  Per the
    spec an unset date has no text, an invalid date and an out-of-range date
    have the configured message "substituted for" the date text, and any other
    date is rendered by the injected [formatDate].  [ignoreRange] renders an
    out-of-range date as well (used when a field gains focus). *)
Definition getFormattedDateString (h : Host) (date : maybe Date) (props : Props.t)
    (ignoreRange : bool) : string :=
  match date with
  | val d =>
      if negb (isValid (Some d)) then Props.invalidDateMessage props
      else if ignoreRange || isDayInRange h (Some d) (Props.minDate props, Props.maxDate props)
      then Props.formatDate props d (Props.locale props)
      else Props.outOfRangeMessage props
  | _ => ""
  end.

(** [Errors.DATERANGEINPUT_NULL_VALUE], the message carried by the error thrown
    by [validateProps]; its text lives in [common/errors]. *)
Inductive Error : Type :=
| DATERANGEINPUT_NULL_VALUE : Error.

(** ** Methods of [DateRangeInput2] *)

Section Component.

Variable h : Host.
Variable props : Props.t.

(** [validateProps]: throws when [props.value === null]. *)
Definition validateProps : unit + Error :=
  match Props.value props with
  | VNull => inr DATERANGEINPUT_NULL_VALUE
  | _ => inl tt
  end.

(** [isControlled = () => this.props.value !== undefined] *)
Definition isControlled : bool :=
  match Props.value props with
  | VUndefined => false
  | _ => true
  end.

(** [isInputEmpty]: [inputString == null || inputString.length === 0] *)
Definition isInputEmpty (inputString : maybe string) : bool :=
  match inputString with
  | val s => Nat.eqb (String.length s) 0
  | _ => true
  end.

Definition getInitialRange : DateRange :=
  match Props.value props with
  | VRange value => value
  | _ =>
      match Props.defaultValue props with
      | val defaultValue => defaultValue
      | _ => (None, None)
      end
  end.

(** [getFormattedMinMaxDateString(props, propName)], the prop being already
    defaulted. *)
Definition getFormattedMinMaxDateString (date : Date) : string :=
  getFormattedDateString h (val date) props false.

(** The state built by the constructor through [reset]. *)
Definition reset : State.t :=
  let '(selectedStart, selectedEnd) := getInitialRange in
  {| State.isOpen := false;
     State.boundaryToModify := None;
     State.lastFocusedField := None;
     State.formattedMinDateString := getFormattedMinMaxDateString (Props.minDate props);
     State.formattedMaxDateString := getFormattedMinMaxDateString (Props.maxDate props);
     State.isStartInputFocused := false;
     State.isEndInputFocused := false;
     State.startInputString := undefined;
     State.endInputString := undefined;
     State.startHoverString := undefined;
     State.endHoverString := undefined;
     State.selectedEnd := selectedEnd;
     State.selectedStart := selectedStart;
     State.shouldSelectAfterUpdate := None;
     State.wasLastFocusChangeDueToHover := None;
     State.selectedShortcutIndex := -1 |}.

(** [isDateValidAndInRange] *)
Definition isDateValidAndInRange (date : option Date) : bool :=
  isValid date && isDayInRange h date (Props.minDate props, Props.maxDate props).

(** [parseDate]: the wrapper around the injected parser.  The three guards
    are strict equalities, so a [null] string is handed to the parser. *)
Definition parseDate (dateString : maybe string) : option Date :=
  if match dateString with
     | undefined => true
     | null => false
     | val s => String.eqb s (Props.outOfRangeMessage props)
                || String.eqb s (Props.invalidDateMessage props)
     end
  then None
  else
    let newDate := Props.parseDate props dateString (Props.locale props) in
    match newDate with
    | PFalse => Some (now h)
    | PNull => None
    | PDate d => Some d
    end.

(** [formatDate] *)
Definition formatDate (date : option Date) : string :=
  match date with
  | Some d =>
      if negb (isDateValidAndInRange date) then ""
      else Props.formatDate props d (Props.locale props)
  | None => ""
  end.

(** The [values] half of [getStateKeysAndValuesForBoundary]; the [keys] half
    is the boundary itself, which indexes the per-boundary assignments. *)
Record Values : Type := {
  controlledValue : maybe Date;
  hoverString : maybe string;
  inputString : maybe string;
  isInputFocused : bool;
  selectedValue : option Date;
}.

Definition getStateKeysAndValuesForBoundary (st : State.t) (boundary : Boundary) : Values :=
  let controlledRange := Props.value props in
  match boundary with
  | START =>
      {| controlledValue :=
           match controlledRange with
           | VRange r => ofNullable (fst r)
           | _ => undefined
           end;
         hoverString := State.startHoverString st;
         inputString := State.startInputString st;
         isInputFocused := State.isStartInputFocused st;
         selectedValue := State.selectedStart st |}
  | END =>
      {| controlledValue :=
           match controlledRange with
           | VRange r => ofNullable (snd r)
           | _ => undefined
           end;
         hoverString := State.endHoverString st;
         inputString := State.endInputString st;
         isInputFocused := State.isEndInputFocused st;
         selectedValue := State.selectedEnd st |}
  end.

Definition getOtherBoundary (boundary : Boundary) : Boundary :=
  match boundary with
  | START => END
  | END => START
  end.

Definition getDateRangeForCallback (st : State.t) (currDate : option Date)
    (currBoundary : Boundary) : DateRange :=
  let otherBoundary := getOtherBoundary currBoundary in
  let otherDate := selectedValue (getStateKeysAndValuesForBoundary st otherBoundary) in
  match currBoundary with
  | START => (currDate, otherDate)
  | END => (otherDate, currDate)
  end.

Definition doBoundaryDatesOverlap (st : State.t) (date : option Date)
    (boundary : Boundary) : bool :=
  let allowSingleDayRange := Props.allowSingleDayRange props in
  let otherBoundary := getOtherBoundary boundary in
  let otherBoundaryDate := selectedValue (getStateKeysAndValuesForBoundary st otherBoundary) in
  match date, otherBoundaryDate with
  | Some date, Some otherBoundaryDate =>
      match boundary with
      | START =>
          let isAfter := Date_gt date otherBoundaryDate in
          isAfter || (negb allowSingleDayRange && isSameDay h date otherBoundaryDate)
      | END =>
          let isBefore := Date_lt date otherBoundaryDate in
          isBefore || (negb allowSingleDayRange && isSameDay h date otherBoundaryDate)
      end
  | _, _ => false
  end.

Definition doesEndBoundaryOverlapStartBoundary (st : State.t) (boundaryDate : Date)
    (boundary : Boundary) : bool :=
  match boundary with
  | START => false
  | END => doBoundaryDatesOverlap st (Some boundaryDate) boundary
  end.

Definition isNextDateRangeValid (st : State.t) (nextDate : option Date)
    (boundary : Boundary) : bool :=
  isDateValidAndInRange nextDate && negb (doBoundaryDatesOverlap st nextDate boundary).

(** *** Derived values *)

(** [getSelectedRange(fallbackRange?)].  Destructuring a [null] controlled
    value throws, which is the [None] result. *)
Definition getSelectedRange (st : State.t) (fallbackRange : option NonNullDateRange)
    : option (maybe Date * maybe Date) :=
  match
    (if isControlled
     then match Props.value props with
          | VRange r => Some r
          | _ => None
          end
     else Some (State.selectedStart st, State.selectedEnd st))
  with
  | None => None
  | Some (selectedStart, selectedEnd) =>
      let doBoundaryDatesOverlap := doBoundaryDatesOverlap st selectedStart START in
      let dateRange :=
        (ofNullable selectedStart,
         if doBoundaryDatesOverlap then undefined else ofNullable selectedEnd) in
      let bound (selectedBound : maybe Date) (index : nat) : maybe Date :=
        let fallbackDate :=
          match fallbackRange with
          | Some fallback =>
              val (match index with O => fst fallback | _ => snd fallback end)
          | None => undefined
          end in
        if isDateValidAndInRange (orNull selectedBound) then selectedBound else fallbackDate in
      Some (bound (fst dateRange) 0%nat, bound (snd dateRange) 1%nat)
  end.

(** [getInputDisplayString] *)
Definition getInputDisplayString (st : State.t) (boundary : Boundary) : string :=
  let values := getStateKeysAndValuesForBoundary st boundary in
  match hoverString values with
  | val hoverString => hoverString
  | _ =>
      if isInputFocused values then
        match inputString values with
        | val inputString => inputString
        | _ => ""
        end
      else
        match selectedValue values with
        | None => ""
        | Some selectedValue =>
            if doesEndBoundaryOverlapStartBoundary st selectedValue boundary
            then Props.overlappingDatesMessage props
            else getFormattedDateString h (val selectedValue) props false
        end
  end.

(** [isInputInErrorState] *)
Definition isInputInErrorState (st : State.t) (boundary : Boundary) : bool :=
  let values := getStateKeysAndValuesForBoundary st boundary in
  if negb (isNullish (hoverString values)) || isInputEmpty (inputString values) then false
  else
    let boundaryValue :=
      if isInputFocused values then parseDate (inputString values)
      else selectedValue values in
    match boundaryValue with
    | None => false
    | Some d =>
        negb (isDateValidAndInRange boundaryValue)
        || doesEndBoundaryOverlapStartBoundary st d boundary
    end.

(** *** Event handlers *)

(** [handleDateRangePickerHoverChange(hoveredRange, _hoveredDay, hoveredBoundary)];
    the calendar passes a nullish range when the pointer leaves it, and may
    pass no boundary. *)
Definition handleDateRangePickerHoverChange (st : State.t)
    (hoveredRange : maybe DateRange) (hoveredBoundary : maybe Boundary) : State.t :=
  if negb (State.isOpen st) then st
  else
    match hoveredRange with
    | val (hoveredStart, hoveredEnd) =>
        let isStartInputFocused :=
          match hoveredBoundary with
          | val START => true
          | val END => false
          | _ => State.isStartInputFocused st
          end in
        let isEndInputFocused :=
          match hoveredBoundary with
          | val END => true
          | val START => false
          | _ => State.isEndInputFocused st
          end in
        setState st
          [ set_hoverString END (val (formatDate hoveredEnd));
            set_isInputFocused END isEndInputFocused;
            set_isInputFocused START isStartInputFocused;
            set_lastFocusedField (Some (if isStartInputFocused then START else END));
            set_shouldSelectAfterUpdate (Some (Props.selectAllOnFocus props));
            set_hoverString START (val (formatDate hoveredStart));
            set_wasLastFocusChangeDueToHover (Some true) ]
    | _ =>
        let isEndInputFocused :=
          match State.boundaryToModify st with
          | Some END => true
          | _ => false
          end in
        setState st
          [ set_hoverString END null;
            set_isInputFocused END isEndInputFocused;
            set_isInputFocused START (negb isEndInputFocused);
            set_lastFocusedField (State.boundaryToModify st);
            set_hoverString START null ]
    end.

(** [handleInputMouseDown] *)
Definition handleInputMouseDown (st : State.t) : State.t :=
  setState st [ set_wasLastFocusChangeDueToHover (Some false) ].

(** [handleInputFocus] *)
Definition handleInputFocus (st : State.t) (boundary : Boundary) : State.t :=
  let values := getStateKeysAndValuesForBoundary st boundary in
  let inputString :=
    getFormattedDateString h (ofNullable (selectedValue values)) props true in
  let boundaryToModify :=
    match State.wasLastFocusChangeDueToHover st with
    | Some true => State.boundaryToModify st
    | _ => Some boundary
    end in
  setState st
    [ set_inputString boundary (val inputString);
      set_isInputFocused boundary true;
      set_boundaryToModify boundaryToModify;
      set_isOpen true;
      set_lastFocusedField (Some boundary);
      set_shouldSelectAfterUpdate (Some (Props.selectAllOnFocus props));
      set_wasLastFocusChangeDueToHover (Some false) ].

(** [handleInputBlur] *)
Definition handleInputBlur (st : State.t) (boundary : Boundary)
    : State.t * list Callback :=
  let values := getStateKeysAndValuesForBoundary st boundary in
  let maybeNextDate := parseDate (inputString values) in
  let isValueControlled := isControlled in
  let nextState :=
    [ set_isInputFocused boundary false; set_shouldSelectAfterUpdate (Some false) ] in
  if isInputEmpty (inputString values) then
    if isValueControlled then
      (setState st
         (nextState ++
          [ set_inputString boundary
              (val (getFormattedDateString h (controlledValue values) props false)) ]),
       [])
    else
      (setState st
         (nextState ++ [ set_inputString boundary null; set_selectedValue boundary None ]),
       [])
  else if negb (isNextDateRangeValid st maybeNextDate boundary) then
    (setState st
       (if negb isValueControlled
        then nextState ++
             [ set_inputString boundary null; set_selectedValue boundary maybeNextDate ]
        else nextState),
     [ onError (getDateRangeForCallback st maybeNextDate boundary) ])
  else (setState st nextState, []).

(** [handleInputChange], [inputString] being [e.target.value]. *)
Definition handleInputChange (st : State.t) (inputString : string) (boundary : Boundary)
    : State.t * list Callback :=
  let maybeNextDate := parseDate (val inputString) in
  let isValueControlled := isControlled in
  let nextState := [ set_shouldSelectAfterUpdate (Some false) ] in
  if Nat.eqb (String.length inputString) 0 then
    let baseState := nextState ++ [ set_inputString boundary (val "") ] in
    (setState st
       (if isValueControlled then baseState
        else baseState ++ [ set_selectedValue boundary None ]),
     [ onChange (getDateRangeForCallback st None boundary) ])
  else if isDateValidAndInRange maybeNextDate then
    let baseState :=
      nextState ++
      [ set_hoverString boundary null; set_inputString boundary (val inputString) ] in
    (setState st
       (if isValueControlled then baseState
        else baseState ++ [ set_selectedValue boundary maybeNextDate ]),
     if isNextDateRangeValid st maybeNextDate boundary
     then [ onChange (getDateRangeForCallback st maybeNextDate boundary) ]
     else [])
  else
    (setState st
       (nextState ++
        [ set_inputString boundary (val inputString); set_hoverString boundary null ]),
     []).

End Component.

(** ** Vocabulary of the properties *)

(** The date selected on the other side of [boundary], as held in the state. *)
Definition otherSelected (st : State.t) (boundary : Boundary) : option Date :=
  match boundary with
  | START => State.selectedEnd st
  | END => State.selectedStart st
  end.

(** The range handed to a callback: [date] on the side of [boundary], the
    state's selected date on the other side. *)
Definition pairedWithOther (st : State.t) (date : option Date) (boundary : Boundary)
    : DateRange :=
  match boundary with
  | START => (date, State.selectedEnd st)
  | END => (State.selectedStart st, date)
  end.

(** The bound of the optional fallback range on the side of [index]. *)
Definition fallbackBound (fallbackRange : option NonNullDateRange) (index : Boundary)
    : maybe Date :=
  match fallbackRange with
  | Some (fallbackStart, fallbackEnd) =>
      val (match index with START => fallbackStart | END => fallbackEnd end)
  | None => undefined
  end.

(** The effective range of controlled mode as the specification words it: the
    external value verbatim, except that the END date gives way to the fallback
    when the START date overlaps; no validity filtering. *)
Definition controlledRangeVerbatim (h : Host) (props : Props.t) (st : State.t)
    (fallbackRange : option NonNullDateRange) (value : DateRange) : maybe Date * maybe Date :=
  (ofNullable (fst value),
   if doBoundaryDatesOverlap h props st (fst value) START
   then fallbackBound fallbackRange END
   else ofNullable (snd value)).

(** The state after a blur in controlled mode as the specification words it:
    only the focus flag of the blurred field changes. *)
Definition onlyFocusFlagCleared (st : State.t) (boundary : Boundary) : State.t :=
  assign st (set_isInputFocused boundary false).

(** ** A concrete configuration

    Days are written as decimal day numbers: the formatter prints the local
    day index of a date, the parser reads one back and reports any other text
    with [false]. *)
Module Sample.

Definition day (n : Z) : Date := MkDate (n * msPerDay).

(** Local time one hour ahead of UTC; the clock stands at 09:00 local time
    on day 50. *)
Definition host : Host :=
  {| clock := 50 * msPerDay + 8 * 3600000; utcOffset := 3600000 |}.

Definition formatDay (d : Date) (_ : maybe string) : string :=
  match d with
  | MkDate t => NilZero.string_of_int (Z.to_int (calendarDay host t))
  | InvalidDate => "NaN"
  end.

Definition parseDay (s : maybe string) (_ : maybe string) : Parsed :=
  match s with
  | val text =>
      match NilZero.int_of_string text with
      | Some n => PDate (day (Z.of_int n))
      | None => PFalse
      end
  | _ => PNull
  end.

(** The default messages, days 0 to 100 selectable. *)
Definition props (value : ValueProp) : Props.t :=
  {| Props.allowSingleDayRange := false;
     Props.defaultValue := undefined;
     Props.value := value;
     Props.minDate := day 0;
     Props.maxDate := day 100;
     Props.invalidDateMessage := "Invalid date";
     Props.outOfRangeMessage := "Out of range";
     Props.overlappingDatesMessage := "Overlapping dates";
     Props.selectAllOnFocus := true;
     Props.locale := undefined;
     Props.parseDate := parseDay;
     Props.formatDate := formatDay |}.

Definition uncontrolled : Props.t := props VUndefined.

(** Controlled with a range lying wholly after [maxDate]. *)
Definition controlledLate : Props.t := props (VRange (Some (day 200), Some (day 300))).

(** Uncontrolled: "20" is typed into START, then "10" into END. *)
Definition startTyped : State.t :=
  let focused := handleInputFocus host uncontrolled (reset host uncontrolled) START in
  let typed := fst (handleInputChange host uncontrolled focused "20" START) in
  fst (handleInputBlur host uncontrolled typed START).

Definition endTyped : State.t :=
  let focused := handleInputFocus host uncontrolled startTyped END in
  fst (handleInputChange host uncontrolled focused "10" END).

(** Uncontrolled: START is focused, then the pointer hovers day 4 as an end
    date in the calendar. *)
Definition hovering : State.t :=
  let focused := handleInputFocus host uncontrolled (reset host uncontrolled) START in
  handleDateRangePickerHoverChange host uncontrolled focused
    (val (Some (day 3), Some (day 4))) (val END).

(** Controlled: the START field, showing the late date, has just been
    focused. *)
Definition lateFocused : State.t :=
  handleInputFocus host controlledLate (reset host controlledLate) START.

End Sample.

(** ** Calendar, keyboard and popover handlers *)

(** The precision of the optional time picker ([timePrecision] prop); the
    component only tests whether it is set. *)
Inductive TimePrecision : Type := MILLISECOND | MINUTE | SECOND.

Module Options.
(** The further props read by the calendar and keyboard handlers and by the
    placeholder, after [defaultProps] have been applied;
    [startPlaceholder] is [startInputProps?.placeholder], [endPlaceholder] is
    [endInputProps?.placeholder]. *)
Record t : Type := {
  closeOnSelection : bool;
  timePrecision : maybe TimePrecision;
  startPlaceholder : maybe string;
  endPlaceholder : maybe string;
}.
End Options.

Module Keys.
(** The key codes [Keys.TAB] and [Keys.ENTER] of the core package. *)
Definition TAB : Z := 9.
Definition ENTER : Z := 13.
End Keys.

(** What [handleInputKeyDown] reads of a keyboard event. *)
Record KeyboardEvent : Type := {
  which : Z;
  shiftKey : bool;
}.

(** The local variables of [handleDateRangePickerChange] that make up its
    state change. *)
Record PickerLocals : Type := {
  l_isOpen : bool;
  l_isStartInputFocused : bool;
  l_isEndInputFocused : bool;
  l_startHoverString : maybe string;
  l_endHoverString : maybe string;
  l_boundaryToModify : option Boundary;
}.

Section Calendar.

Variable h : Host.
Variable props : Props.t.
Variable opts : Options.t.

(** [isSameTime] of [common/dateUtils], which is not among the sources: the
    comparison of the time-of-day of two dates. *)
Variable isSameTime : maybe Date -> maybe Date -> bool.

(** [getIsOpenValueWhenDateChanges]; [None] when [getSelectedRange] throws. *)
Definition getIsOpenValueWhenDateChanges (st : State.t)
    (nextSelectedStart nextSelectedEnd : Date) : option bool :=
  if Options.closeOnSelection opts then
    if isNullish (Options.timePrecision opts) then Some false
    else
      let fallbackDate := startOfDay h (now h) in
      match getSelectedRange h props st (Some (fallbackDate, fallbackDate)) with
      | None => None
      | Some (selectedStart, selectedEnd) =>
          if isSameTime selectedStart (val nextSelectedStart)
             && isSameTime selectedEnd (val nextSelectedEnd)
          then Some false
          else Some true
      end
  else Some true.

(** The branch of [handleDateRangePickerChange] that decides focus, hover
    strings, the boundary to modify and whether the popover stays open. *)
Definition pickerLocals (st : State.t) (selectedRange : DateRange)
    (didSubmitWithEnter : bool) : option PickerLocals :=
  let '(selectedStart, selectedEnd) := selectedRange in
  let noTimePrecision := isNullish (Options.timePrecision opts) in
  match selectedStart, selectedEnd with
  | None, _ =>
      Some
        (if noTimePrecision
         then {| l_isOpen := true; l_isStartInputFocused := true;
                 l_isEndInputFocused := false; l_startHoverString := null;
                 l_endHoverString := undefined; l_boundaryToModify := None |}
         else {| l_isOpen := true; l_isStartInputFocused := false;
                 l_isEndInputFocused := false; l_startHoverString := null;
                 l_endHoverString := undefined; l_boundaryToModify := Some START |})
  | Some _, None =>
      Some
        (if noTimePrecision
         then {| l_isOpen := true; l_isStartInputFocused := false;
                 l_isEndInputFocused := true; l_startHoverString := undefined;
                 l_endHoverString := null; l_boundaryToModify := None |}
         else {| l_isOpen := true; l_isStartInputFocused := false;
                 l_isEndInputFocused := false; l_startHoverString := undefined;
                 l_endHoverString := null; l_boundaryToModify := Some END |})
  | Some selectedStart, Some selectedEnd =>
      if Options.closeOnSelection opts then
        match getIsOpenValueWhenDateChanges st selectedStart selectedEnd with
        | None => None
        | Some isOpen =>
            Some
              (if noTimePrecision && didSubmitWithEnter
               then {| l_isOpen := isOpen; l_isStartInputFocused := false;
                       l_isEndInputFocused := true; l_startHoverString := undefined;
                       l_endHoverString := undefined; l_boundaryToModify := None |}
               else {| l_isOpen := isOpen; l_isStartInputFocused := false;
                       l_isEndInputFocused := false; l_startHoverString := undefined;
                       l_endHoverString := undefined; l_boundaryToModify := Some END |})
        end
      else
        match State.lastFocusedField st with
        | Some START =>
            Some
              (if noTimePrecision
               then {| l_isOpen := true; l_isStartInputFocused := true;
                       l_isEndInputFocused := false; l_startHoverString := undefined;
                       l_endHoverString := undefined; l_boundaryToModify := None |}
               else {| l_isOpen := true; l_isStartInputFocused := false;
                       l_isEndInputFocused := false; l_startHoverString := undefined;
                       l_endHoverString := undefined; l_boundaryToModify := Some START |})
        | _ =>
            Some
              (if noTimePrecision
               then {| l_isOpen := true; l_isStartInputFocused := false;
                       l_isEndInputFocused := true; l_startHoverString := undefined;
                       l_endHoverString := undefined; l_boundaryToModify := None |}
               else {| l_isOpen := true; l_isStartInputFocused := false;
                       l_isEndInputFocused := false; l_startHoverString := undefined;
                       l_endHoverString := undefined; l_boundaryToModify := Some END |})
        end
  end.

(** [handleDateRangePickerChange(selectedRange, didSubmitWithEnter)]; [None]
    when the handler throws.  An entry of the state change whose local was
    never assigned is [undefined] and overwrites the field all the same. *)
Definition handleDateRangePickerChange (st : State.t) (selectedRange : DateRange)
    (didSubmitWithEnter : bool) : option (State.t * list Callback) :=
  if negb (State.isOpen st) then Some (st, [])
  else
    match pickerLocals st selectedRange didSubmitWithEnter with
    | None => None
    | Some l =>
        let '(selectedStart, selectedEnd) := selectedRange in
        let baseStateChange :=
          [ set_boundaryToModify (l_boundaryToModify l);
            set_hoverString END (l_endHoverString l);
            set_inputString END (val (formatDate h props selectedEnd));
            set_isInputFocused END (l_isEndInputFocused l);
            set_isOpen (l_isOpen l);
            set_isInputFocused START (l_isStartInputFocused l);
            set_hoverString START (l_startHoverString l);
            set_inputString START (val (formatDate h props selectedStart));
            set_wasLastFocusChangeDueToHover (Some false) ] in
        Some
          (setState st
             (if isControlled props then baseStateChange
              else baseStateChange ++
                   [ set_selectedValue END selectedEnd;
                     set_selectedValue START selectedStart ]),
           [ onChange selectedRange ])
    end.

(** [handleInputKeyDown]; the third component tells whether
    [e.preventDefault()] was called. *)
Definition handleInputKeyDown (st : State.t) (e : KeyboardEvent)
    : option (State.t * list Callback * bool) :=
  let isTabPressed := which e =? Keys.TAB in
  let isEnterPressed := which e =? Keys.ENTER in
  let isShiftPressed := shiftKey e in
  let selectedStart := State.selectedStart st in
  let selectedEnd := State.selectedEnd st in
  let wasStartFieldFocused :=
    match State.lastFocusedField st with Some START => true | _ => false end in
  let wasEndFieldFocused :=
    match State.lastFocusedField st with Some END => true | _ => false end in
  if isTabPressed then
    let '(isStartInputFocused, isEndInputFocused, isOpen, prevented) :=
      if wasStartFieldFocused && negb isShiftPressed then (false, true, true, true)
      else if wasEndFieldFocused && isShiftPressed then (true, false, true, true)
      else (false, false, false, false) in
    Some
      (setState st
         [ set_isInputFocused END isEndInputFocused;
           set_isOpen isOpen;
           set_isInputFocused START isStartInputFocused;
           set_wasLastFocusChangeDueToHover (Some false) ],
       [], prevented)
  else if wasStartFieldFocused && isEnterPressed then
    let nextStartDate := parseDate h props (State.startInputString st) in
    option_map (fun r => (r, false))
      (handleDateRangePickerChange st (nextStartDate, selectedEnd) true)
  else if wasEndFieldFocused && isEnterPressed then
    let nextEndDate := parseDate h props (State.endInputString st) in
    option_map (fun r => (r, false))
      (handleDateRangePickerChange st (selectedStart, nextEndDate) true)
  else Some (st, [], false).

(** [handlePopoverClose]: the state change; the popover's own [onClose] prop
    is called afterwards. *)
Definition handlePopoverClose (st : State.t) : State.t :=
  setState st [ set_isOpen false ].

(** [getInputPlaceholderString] *)
Definition getInputPlaceholderString (st : State.t) (boundary : Boundary) : string :=
  let placeholder :=
    match boundary with
    | START => Options.startPlaceholder opts
    | END => Options.endPlaceholder opts
    end in
  let isInputFocused :=
    isInputFocused (getStateKeysAndValuesForBoundary props st boundary) in
  match placeholder with
  | val placeholder => placeholder
  | _ =>
      match boundary with
      | START => if isInputFocused then State.formattedMinDateString st else "Start date"
      | END => if isInputFocused then State.formattedMaxDateString st else "End date"
      end
  end.

(** *** Interactions

    The events the rendered inputs, calendar and popover deliver to the
    component, as wired in [render], [renderInputGroup] and
    [handleInputEvent]. *)
Inductive Interaction : Type :=
| Blur (boundary : Boundary)
| Change (boundary : Boundary) (text : string)
| Click (boundary : Boundary)
| Focus (boundary : Boundary)
| KeyDown (boundary : Boundary) (e : KeyboardEvent)
| MouseDown (boundary : Boundary)
| PickerChange (selectedRange : DateRange)
| PickerHoverChange (hoveredRange : maybe DateRange) (hoveredBoundary : maybe Boundary)
| PopoverClose.

(** The handler an interaction reaches, with the callbacks it invokes; [None]
    when the handler throws.  [handleInputClick] only stops propagation. *)
Definition perform (st : State.t) (i : Interaction) : option (State.t * list Callback) :=
  match i with
  | Blur boundary => Some (handleInputBlur h props st boundary)
  | Change boundary text => Some (handleInputChange h props st text boundary)
  | Click _ => Some (st, [])
  | Focus boundary => Some (handleInputFocus h props st boundary, [])
  | KeyDown _ e => option_map fst (handleInputKeyDown st e)
  | MouseDown _ => Some (handleInputMouseDown st, [])
  | PickerChange selectedRange => handleDateRangePickerChange st selectedRange false
  | PickerHoverChange hoveredRange hoveredBoundary =>
      Some (handleDateRangePickerHoverChange h props st hoveredRange hoveredBoundary, [])
  | PopoverClose => Some (handlePopoverClose st, [])
  end.

(** A sequence of interactions, each handled in the state the previous one
    left; the callbacks are collected in order. *)
Fixpoint performAll (st : State.t) (steps : list Interaction)
    : option (State.t * list Callback) :=
  match steps with
  | [] => Some (st, [])
  | i :: rest =>
      match perform st i with
      | None => None
      | Some (st', called) =>
          match performAll st' rest with
          | None => None
          | Some (st'', called') => Some (st'', called ++ called')
          end
      end
  end.

End Calendar.

(** The internal selection of [st'] is that of [st]. *)
Definition sameSelection (st st' : State.t) : Prop :=
  State.selectedStart st' = State.selectedStart st
  /\ State.selectedEnd st' = State.selectedEnd st.

(** ** A concrete calendar configuration *)
Module Scenario.

(** No time picker, the popover closes on selection, default placeholders. *)
Definition options : Options.t :=
  {| Options.closeOnSelection := true;
     Options.timePrecision := undefined;
     Options.startPlaceholder := undefined;
     Options.endPlaceholder := undefined |}.


(** Two dates have the same time when they are equally far into their local
    day. *)
Definition sameTime (a b : maybe Date) : bool :=
  match a, b with
  | val (MkDate t), val (MkDate u) =>
      (t + utcOffset Sample.host) mod msPerDay =? (u + utcOffset Sample.host) mod msPerDay
  | _, _ => false
  end.

(** Uncontrolled: "20" has been typed into START and "30" into END, and both
    fields have been left. *)
Definition ranged : State.t :=
  let focused :=
    handleInputFocus Sample.host Sample.uncontrolled Sample.startTyped END in
  let typed := fst (handleInputChange Sample.host Sample.uncontrolled focused "30" END) in
  fst (handleInputBlur Sample.host Sample.uncontrolled typed END).

(** The same selection with the START field focused again, the popover open. *)
Definition rangedFocused : State.t :=
  handleInputFocus Sample.host Sample.uncontrolled ranged START.

Definition tab : KeyboardEvent := {| which := Keys.TAB; shiftKey := false |}.
Definition shiftTab : KeyboardEvent := {| which := Keys.TAB; shiftKey := true |}.
Definition enter : KeyboardEvent := {| which := Keys.ENTER; shiftKey := false |}.

End Scenario.

(** * Properties *)

(** ** Dates and days *)

Lemma msPerDay_pos : 0 < msPerDay.
Proof. reflexivity. Qed.

Lemma startOfDay_calendarDay (h : Host) (t : Z) :
  startOfDay h (MkDate t) = MkDate (calendarDay h t * msPerDay - utcOffset h).
Proof.
  unfold startOfDay, calendarDay. f_equal.
  pose proof msPerDay_pos as Hpos.
  pose proof (Z.div_mod (t + utcOffset h) msPerDay ltac:(lia)) as E.
  lia.
Qed.

Lemma isSameDay_calendarDay (h : Host) (t u : Z) :
  isSameDay h (MkDate t) (MkDate u) = true <-> calendarDay h t = calendarDay h u.
Proof.
  unfold isSameDay. rewrite !startOfDay_calendarDay, Z.eqb_eq.
  pose proof msPerDay_pos. split; intros E; [nia | now rewrite E].
Qed.

Lemma isSameDay_refl (h : Host) (t : Z) : isSameDay h (MkDate t) (MkDate t) = true.
Proof. now apply isSameDay_calendarDay. Qed.

Lemma isSameDay_invalid_l (h : Host) (d : Date) : isSameDay h InvalidDate d = false.
Proof. reflexivity. Qed.

Lemma isSameDay_invalid_r (h : Host) (d : Date) : isSameDay h d InvalidDate = false.
Proof. unfold isSameDay. simpl. now destruct (startOfDay h d). Qed.

Lemma startOfDay_le_calendarDay (h : Host) (t u : Z) :
  Date_le (startOfDay h (MkDate t)) (startOfDay h (MkDate u)) = true
  <-> calendarDay h t <= calendarDay h u.
Proof.
  rewrite !startOfDay_calendarDay. simpl. rewrite Z.leb_le.
  pose proof msPerDay_pos. split; intros; nia.
Qed.

Lemma isDayInRange_calendarDay (h : Host) (t lo hi : Z) :
  isDayInRange h (Some (MkDate t)) (MkDate lo, MkDate hi) = true
  <-> calendarDay h lo <= calendarDay h t <= calendarDay h hi.
Proof.
  unfold isDayInRange. cbv zeta. unfold fst, snd.
  rewrite andb_true_iff, !startOfDay_le_calendarDay. tauto.
Qed.

(** ** Validation engine *)

Lemma isDateValidAndInRange_invalid (h : Host) (props : Props.t) :
  isDateValidAndInRange h props (Some InvalidDate) = false.
Proof. reflexivity. Qed.

Lemma isDateValidAndInRange_null (h : Host) (props : Props.t) :
  isDateValidAndInRange h props None = false.
Proof. reflexivity. Qed.

Lemma isDateValidAndInRange_true_valid (h : Host) (props : Props.t) (date : option Date) :
  isDateValidAndInRange h props date = true -> exists t, date = Some (MkDate t).
Proof.
  destruct date as [[|t]|]; try discriminate. intros _. now exists t.
Qed.

Lemma isDateValidAndInRange_days (h : Host) (props : Props.t) (lo hi t : Z) :
  Props.minDate props = MkDate lo ->
  Props.maxDate props = MkDate hi ->
  isDateValidAndInRange h props (Some (MkDate t)) = true
  <-> calendarDay h lo <= calendarDay h t <= calendarDay h hi.
Proof.
  intros Hlo Hhi. unfold isDateValidAndInRange. rewrite Hlo, Hhi. simpl isValid.
  rewrite andb_true_l. apply isDayInRange_calendarDay.
Qed.

(** C5: with [minDate] and [maxDate] valid dates, [isDateValidAndInRange] is
    true for every valid date whose local calendar day lies between the day of
    [minDate] and the day of [maxDate], both included, false for every valid
    date whose day lies outside, and false for every invalid date whatever the
    configured range. *)
Theorem isDateValidAndInRange_spec (h : Host) (props : Props.t) :
  (forall lo hi t,
      Props.minDate props = MkDate lo ->
      Props.maxDate props = MkDate hi ->
      calendarDay h lo <= calendarDay h t <= calendarDay h hi ->
      isDateValidAndInRange h props (Some (MkDate t)) = true)
  /\ (forall lo hi t,
      Props.minDate props = MkDate lo ->
      Props.maxDate props = MkDate hi ->
      calendarDay h t < calendarDay h lo \/ calendarDay h hi < calendarDay h t ->
      isDateValidAndInRange h props (Some (MkDate t)) = false)
  /\ isDateValidAndInRange h props (Some InvalidDate) = false.
Proof.
  split; [|split].
  - intros lo hi t Hlo Hhi Hin. now apply (isDateValidAndInRange_days h props lo hi t Hlo Hhi).
  - intros lo hi t Hlo Hhi Hout.
    apply not_true_is_false. intros Htrue.
    apply (isDateValidAndInRange_days h props lo hi t Hlo Hhi) in Htrue. lia.
  - apply isDateValidAndInRange_invalid.
Qed.

(** The last local hour of day 100 is accepted, the first of day 101 is not. *)
Lemma isDateValidAndInRange_spec_witness :
  isDateValidAndInRange Sample.host Sample.uncontrolled
    (Some (MkDate (100 * msPerDay + 22 * 3600000))) = true
  /\ isDateValidAndInRange Sample.host Sample.uncontrolled
    (Some (MkDate (100 * msPerDay + 23 * 3600000))) = false.
Proof.
  destruct (isDateValidAndInRange_spec Sample.host Sample.uncontrolled) as (Hin & Hout & _).
  split.
  - apply (Hin 0 (100 * msPerDay)); [reflexivity | reflexivity | vm_compute; split; discriminate].
  - apply (Hout 0 (100 * msPerDay)); [reflexivity | reflexivity | right; reflexivity].
Defined.

Section Overlap.

Variable h : Host.
Variable props : Props.t.
Variable st : State.t.

Lemma selectedValue_other (boundary : Boundary) :
  selectedValue (getStateKeysAndValuesForBoundary props st (getOtherBoundary boundary))
  = otherSelected st boundary.
Proof. now destruct boundary. Qed.

Lemma doBoundaryDatesOverlap_null_date (boundary : Boundary) :
  doBoundaryDatesOverlap h props st None boundary = false.
Proof. reflexivity. Qed.

Lemma doBoundaryDatesOverlap_null_other (date : option Date) (boundary : Boundary) :
  otherSelected st boundary = None ->
  doBoundaryDatesOverlap h props st date boundary = false.
Proof.
  intros E. unfold doBoundaryDatesOverlap. cbv zeta.
  rewrite selectedValue_other, E. now destruct date.
Qed.

Lemma doBoundaryDatesOverlap_START (date : option Date) :
  doBoundaryDatesOverlap h props st date START = true
  <-> exists t u,
      date = Some (MkDate t) /\ State.selectedEnd st = Some (MkDate u)
      /\ (u < t
          \/ (Props.allowSingleDayRange props = false
              /\ calendarDay h t = calendarDay h u)).
Proof.
  unfold doBoundaryDatesOverlap. cbv zeta. rewrite selectedValue_other. unfold otherSelected.
  destruct date as [[|t]|], (State.selectedEnd st) as [[|u]|]; simpl;
    rewrite ?isSameDay_invalid_r, ?andb_false_r;
    try (split; [discriminate | intros (? & ? & ? & ? & _); congruence]).
  rewrite orb_true_iff, andb_true_iff, negb_true_iff, Z.ltb_lt, isSameDay_calendarDay.
  split.
  - intros H. exists t, u. auto.
  - intros (t' & u' & Et & Eu & H). injection Et as <-. injection Eu as <-. exact H.
Qed.

Lemma doBoundaryDatesOverlap_END (date : option Date) :
  doBoundaryDatesOverlap h props st date END = true
  <-> exists t u,
      date = Some (MkDate t) /\ State.selectedStart st = Some (MkDate u)
      /\ (t < u
          \/ (Props.allowSingleDayRange props = false
              /\ calendarDay h t = calendarDay h u)).
Proof.
  unfold doBoundaryDatesOverlap. cbv zeta. rewrite selectedValue_other. unfold otherSelected.
  destruct date as [[|t]|], (State.selectedStart st) as [[|u]|]; simpl;
    rewrite ?isSameDay_invalid_r, ?andb_false_r;
    try (split; [discriminate | intros (? & ? & ? & ? & _); congruence]).
  rewrite orb_true_iff, andb_true_iff, negb_true_iff, Z.ltb_lt, isSameDay_calendarDay.
  split.
  - intros H. exists t, u. auto.
  - intros (t' & u' & Et & Eu & H). injection Et as <-. injection Eu as <-. exact H.
Qed.

Lemma doBoundaryDatesOverlap_equal (t : Z) (boundary : Boundary) :
  otherSelected st boundary = Some (MkDate t) ->
  doBoundaryDatesOverlap h props st (Some (MkDate t)) boundary
  = negb (Props.allowSingleDayRange props).
Proof.
  intros E. unfold doBoundaryDatesOverlap. cbv zeta. rewrite selectedValue_other, E.
  rewrite isSameDay_refl, andb_true_r.
  destruct boundary; simpl; now rewrite Z.ltb_irrefl.
Qed.

End Overlap.

(** C2: [doBoundaryDatesOverlap(date, START)] is true exactly when [date] is
    strictly after the date selected on the other side, or, with
    [allowSingleDayRange] false, falls on the same calendar day; for [END] the
    comparison is reversed.  For equal dates the predicate is therefore true on
    both boundaries when [allowSingleDayRange] is false and false when it is
    true, and it is false as soon as either date is [null]. *)
Theorem doBoundaryDatesOverlap_spec (h : Host) (props : Props.t) (st : State.t) :
  (forall date,
      doBoundaryDatesOverlap h props st date START = true
      <-> exists t u,
          date = Some (MkDate t) /\ State.selectedEnd st = Some (MkDate u)
          /\ (u < t
              \/ (Props.allowSingleDayRange props = false
                  /\ calendarDay h t = calendarDay h u)))
  /\ (forall date,
      doBoundaryDatesOverlap h props st date END = true
      <-> exists t u,
          date = Some (MkDate t) /\ State.selectedStart st = Some (MkDate u)
          /\ (t < u
              \/ (Props.allowSingleDayRange props = false
                  /\ calendarDay h t = calendarDay h u)))
  /\ (forall t boundary,
      otherSelected st boundary = Some (MkDate t) ->
      doBoundaryDatesOverlap h props st (Some (MkDate t)) boundary
      = negb (Props.allowSingleDayRange props))
  /\ (forall boundary, doBoundaryDatesOverlap h props st None boundary = false)
  /\ (forall date boundary,
      otherSelected st boundary = None ->
      doBoundaryDatesOverlap h props st date boundary = false).
Proof.
  repeat split.
  - apply doBoundaryDatesOverlap_START.
  - apply doBoundaryDatesOverlap_START.
  - apply doBoundaryDatesOverlap_END.
  - apply doBoundaryDatesOverlap_END.
  - intros t boundary. apply doBoundaryDatesOverlap_equal.
  - intros date boundary. apply doBoundaryDatesOverlap_null_other.
Qed.

(** Day 10 selected on both sides, single-day ranges not allowed: each side
    overlaps the other. *)
Lemma doBoundaryDatesOverlap_spec_witness :
  let props := Sample.props (VRange (Some (Sample.day 10), Some (Sample.day 10))) in
  doBoundaryDatesOverlap Sample.host props (reset Sample.host props)
    (Some (Sample.day 10)) START = true
  /\ doBoundaryDatesOverlap Sample.host props (reset Sample.host props)
    (Some (Sample.day 10)) END = true.
Proof.
  intros props.
  destruct (doBoundaryDatesOverlap_spec Sample.host props (reset Sample.host props))
    as (_ & _ & Heq & _).
  split; apply (Heq (10 * msPerDay)); reflexivity.
Defined.

(** ** Prop validation *)

(** C8: [validateProps] fails at once, with the blocking null-value error,
    exactly when the controlled value is literally [null]; every other value,
    an absent one and [[null, null]] included, passes. *)
Theorem validateProps_spec (props : Props.t) :
  (Props.value props = VNull -> validateProps props = inr DATERANGEINPUT_NULL_VALUE)
  /\ (Props.value props <> VNull -> validateProps props = inl tt)
  /\ (Props.value props = VRange (None, None) -> validateProps props = inl tt).
Proof.
  unfold validateProps. repeat split; intros E.
  - now rewrite E.
  - destruct (Props.value props); congruence.
  - now rewrite E.
Qed.

Lemma validateProps_spec_witness :
  validateProps (Sample.props VNull) = inr DATERANGEINPUT_NULL_VALUE
  /\ validateProps (Sample.props (VRange (None, None))) = inl tt
  /\ validateProps Sample.uncontrolled = inl tt.
Proof.
  split; [|split].
  - apply (proj1 (validateProps_spec (Sample.props VNull))). reflexivity.
  - apply (proj2 (proj2 (validateProps_spec (Sample.props (VRange (None, None)))))).
    reflexivity.
  - apply (proj1 (proj2 (validateProps_spec Sample.uncontrolled))). discriminate.
Defined.

(** ** Parsing typed text *)

Lemma parseDate_undefined (h : Host) (props : Props.t) :
  parseDate h props undefined = None.
Proof. reflexivity. Qed.

Lemma parseDate_outOfRangeMessage (h : Host) (props : Props.t) :
  parseDate h props (val (Props.outOfRangeMessage props)) = None.
Proof. unfold parseDate. now rewrite String.eqb_refl. Qed.

Lemma parseDate_invalidDateMessage (h : Host) (props : Props.t) :
  parseDate h props (val (Props.invalidDateMessage props)) = None.
Proof. unfold parseDate. now rewrite String.eqb_refl, orb_true_r. Qed.

Lemma parseDate_parsed (h : Host) (props : Props.t) (s : string) :
  s <> Props.outOfRangeMessage props ->
  s <> Props.invalidDateMessage props ->
  parseDate h props (val s)
  = match Props.parseDate props (val s) (Props.locale props) with
    | PFalse => Some (now h)
    | PNull => None
    | PDate d => Some d
    end.
Proof.
  intros Ho Hi. unfold parseDate.
  apply String.eqb_neq in Ho, Hi. now rewrite Ho, Hi.
Qed.

Lemma length_nonempty (s : string) : s <> "" -> Nat.eqb (String.length s) 0 = false.
Proof. destruct s; [congruence | reflexivity]. Qed.

Lemma getDateRangeForCallback_pair (props : Props.t) (st : State.t) (date : option Date)
    (boundary : Boundary) :
  getDateRangeForCallback props st date boundary = pairedWithOther st date boundary.
Proof. now destruct boundary. Qed.

Section Typing.

Variable h : Host.
Variable props : Props.t.
Variable st : State.t.
Variable boundary : Boundary.

Lemma handleInputChange_empty :
  snd (handleInputChange h props st "" boundary)
  = [onChange (getDateRangeForCallback props st None boundary)].
Proof. reflexivity. Qed.

Lemma handleInputChange_valid (s : string) :
  s <> "" ->
  isDateValidAndInRange h props (parseDate h props (val s)) = true ->
  snd (handleInputChange h props st s boundary)
  = if doBoundaryDatesOverlap h props st (parseDate h props (val s)) boundary
    then []
    else [onChange (getDateRangeForCallback props st (parseDate h props (val s)) boundary)].
Proof.
  intros Hs Hv. unfold handleInputChange, isNextDateRangeValid. cbv zeta.
  rewrite (length_nonempty s Hs), Hv. simpl.
  now destruct (doBoundaryDatesOverlap h props st (parseDate h props (val s)) boundary).
Qed.

Lemma handleInputChange_rejected (s : string) :
  s <> "" ->
  isDateValidAndInRange h props (parseDate h props (val s)) = false ->
  handleInputChange h props st s boundary
  = (setState st [ set_shouldSelectAfterUpdate (Some false);
                   set_inputString boundary (val s);
                   set_hoverString boundary null ],
     []).
Proof.
  intros Hs Hv. unfold handleInputChange. cbv zeta.
  now rewrite (length_nonempty s Hs), Hv.
Qed.

End Typing.

(** C10: the parse wrapper returns [null] when the string is [undefined] and
    when it is exactly the configured [outOfRangeMessage] or
    [invalidDateMessage]; typing such a message therefore never reports a date
    for the edited boundary through [onChange]. *)
Theorem parseDate_guards (h : Host) (props : Props.t) :
  parseDate h props undefined = None
  /\ parseDate h props (val (Props.outOfRangeMessage props)) = None
  /\ parseDate h props (val (Props.invalidDateMessage props)) = None
  /\ (forall st boundary s range,
      s = Props.outOfRangeMessage props \/ s = Props.invalidDateMessage props ->
      In (onChange range) (snd (handleInputChange h props st s boundary)) ->
      range = pairedWithOther st None boundary).
Proof.
  split; [apply parseDate_undefined|].
  split; [apply parseDate_outOfRangeMessage|].
  split; [apply parseDate_invalidDateMessage|].
  intros st boundary s range Hs Hin.
  assert (Hparse : parseDate h props (val s) = None).
  { destruct Hs as [-> | ->];
      [apply parseDate_outOfRangeMessage | apply parseDate_invalidDateMessage]. }
  destruct (string_dec s "") as [-> | Hne].
  - rewrite handleInputChange_empty, getDateRangeForCallback_pair in Hin.
    destruct Hin as [E | []]. now injection E as <-.
  - rewrite handleInputChange_rejected in Hin; [destruct Hin | exact Hne |].
    rewrite Hparse. apply isDateValidAndInRange_null.
Qed.

(** Typing the text of the out-of-range message commits nothing. *)
Lemma parseDate_guards_witness :
  parseDate Sample.host Sample.uncontrolled (val "Out of range") = None
  /\ parseDate Sample.host Sample.uncontrolled (val "Invalid date") = None
  /\ ~ In (onChange (Some (now Sample.host), None))
         (snd (handleInputChange Sample.host Sample.uncontrolled
                 (reset Sample.host Sample.uncontrolled) "Out of range" START)).
Proof.
  destruct (parseDate_guards Sample.host Sample.uncontrolled) as (_ & Ho & Hi & Hc).
  split; [exact Ho|]. split; [exact Hi|].
  intros Hin.
  apply (Hc (reset Sample.host Sample.uncontrolled) START "Out of range") in Hin;
    [discriminate | left; reflexivity].
Defined.

(** C7: whenever the wrapper hands a string to the injected [parseDate] (the
    string is neither of the two guarded messages) and the parser answers
    [false], the wrapper yields the current date, [new Date()], which is a valid
    date; when the current day is within the configured range and does not
    overlap the other boundary, typing that string commits it through
    [onChange]. *)
Theorem parseDate_false_is_now (h : Host) (props : Props.t) (s : string) :
  s <> Props.outOfRangeMessage props ->
  s <> Props.invalidDateMessage props ->
  Props.parseDate props (val s) (Props.locale props) = PFalse ->
  parseDate h props (val s) = Some (now h)
  /\ isValid (parseDate h props (val s)) = true
  /\ (forall st boundary,
      s <> "" ->
      isDateValidAndInRange h props (Some (now h)) = true ->
      doBoundaryDatesOverlap h props st (Some (now h)) boundary = false ->
      snd (handleInputChange h props st s boundary)
      = [onChange (pairedWithOther st (Some (now h)) boundary)]).
Proof.
  intros Ho Hi Hfalse.
  assert (Hparse : parseDate h props (val s) = Some (now h)).
  { rewrite (parseDate_parsed h props s Ho Hi). now rewrite Hfalse. }
  split; [exact Hparse|]. split; [now rewrite Hparse|].
  intros st boundary Hne Hvalid Hoverlap.
  rewrite handleInputChange_valid; rewrite ?Hparse; try assumption.
  now rewrite Hoverlap, getDateRangeForCallback_pair.
Qed.

(** The parser rejects "abc"; typed into an empty START field on day 50 it is
    committed as the current date. *)
Lemma parseDate_false_is_now_witness :
  parseDate Sample.host Sample.uncontrolled (val "abc") = Some (now Sample.host)
  /\ snd (handleInputChange Sample.host Sample.uncontrolled
            (reset Sample.host Sample.uncontrolled) "abc" START)
     = [onChange (Some (now Sample.host), None)].
Proof.
  assert (Ho : "abc" <> Props.outOfRangeMessage Sample.uncontrolled) by discriminate.
  assert (Hi : "abc" <> Props.invalidDateMessage Sample.uncontrolled) by discriminate.
  destruct (parseDate_false_is_now Sample.host Sample.uncontrolled "abc" Ho Hi eq_refl)
    as (Hparse & _ & Hcommit).
  split; [exact Hparse|].
  apply (Hcommit (reset Sample.host Sample.uncontrolled) START);
    [discriminate | reflexivity | reflexivity].
Defined.

(** ** Displayed text *)

Lemma getFormattedDateString_valid (h : Host) (props : Props.t) (d : Date) :
  isDateValidAndInRange h props (Some d) = true ->
  getFormattedDateString h (val d) props false = Props.formatDate props d (Props.locale props).
Proof.
  unfold isDateValidAndInRange, getFormattedDateString.
  intros [Hv Hr]%andb_true_iff. now rewrite Hv, Hr.
Qed.

(** C9: a non-null hover string is displayed whatever else the state holds;
    without one, a focused field displays its raw input string (the empty
    string when unset); without one and unfocused, a selected END value that
    overlaps the START value displays [overlappingDatesMessage], and a selected
    value that does not overlap displays its formatted date string, which for a
    valid in-range date is the text produced by [formatDate]. *)
Theorem getInputDisplayString_precedence (h : Host) (props : Props.t) (st : State.t)
    (boundary : Boundary) :
  let values := getStateKeysAndValuesForBoundary props st boundary in
  (forall hover,
      hoverString values = val hover ->
      getInputDisplayString h props st boundary = hover)
  /\ (isNullish (hoverString values) = true ->
      isInputFocused values = true ->
      getInputDisplayString h props st boundary
      = match inputString values with
        | val typed => typed
        | _ => ""
        end)
  /\ (forall d,
      isNullish (hoverString values) = true ->
      isInputFocused values = false ->
      selectedValue values = Some d ->
      (boundary = END ->
       doBoundaryDatesOverlap h props st (Some d) END = true ->
       getInputDisplayString h props st boundary = Props.overlappingDatesMessage props)
      /\ (doesEndBoundaryOverlapStartBoundary h props st d boundary = false ->
          getInputDisplayString h props st boundary
          = getFormattedDateString h (val d) props false)
      /\ (doesEndBoundaryOverlapStartBoundary h props st d boundary = false ->
          isDateValidAndInRange h props (Some d) = true ->
          getInputDisplayString h props st boundary
          = Props.formatDate props d (Props.locale props))).
Proof.
  intros values. unfold getInputDisplayString. fold values.
  split; [|split].
  - intros hover ->. reflexivity.
  - intros Hh Hf. rewrite Hf. now destruct (hoverString values).
  - intros d Hh Hf Hs. rewrite Hf, Hs.
    assert (Hrest : forall text : string,
               match hoverString values with val hover => hover | _ => text end = text).
    { intros text. now destruct (hoverString values). }
    rewrite Hrest. split; [|split].
    + intros Eb Ho. rewrite Eb. unfold doesEndBoundaryOverlapStartBoundary.
      now rewrite Ho.
    + intros Ho. now rewrite Ho.
    + intros Ho Hv. rewrite Ho. now apply getFormattedDateString_valid.
Qed.

(** With START at day 20 and END typed as day 10, the blurred END field shows
    the overlap message and the START field its formatted date. *)
Lemma getInputDisplayString_precedence_witness :
  let st := fst (handleInputBlur Sample.host Sample.uncontrolled Sample.endTyped END) in
  getInputDisplayString Sample.host Sample.uncontrolled st END = "Overlapping dates"
  /\ getInputDisplayString Sample.host Sample.uncontrolled st START = "20"
  /\ getInputDisplayString Sample.host Sample.uncontrolled Sample.hovering END = "4".
Proof.
  intros st.
  destruct (getInputDisplayString_precedence Sample.host Sample.uncontrolled st END)
    as (_ & _ & Hend).
  destruct (getInputDisplayString_precedence Sample.host Sample.uncontrolled st START)
    as (_ & _ & Hstart).
  destruct (getInputDisplayString_precedence Sample.host Sample.uncontrolled
              Sample.hovering END) as (Hhover & _).
  split; [|split].
  - apply (proj1 (Hend (Sample.day 10) eq_refl eq_refl eq_refl)); reflexivity.
  - apply (proj2 (proj2 (Hstart (Sample.day 20) eq_refl eq_refl eq_refl))); reflexivity.
  - apply Hhover. reflexivity.
Defined.

(** ** Effective range *)

Lemma orNull_ofNullable {T : Type} (x : option T) : orNull (ofNullable x) = x.
Proof. now destruct x. Qed.

Lemma getSelectedRange_of_range (h : Host) (props : Props.t) (st : State.t)
    (fallbackRange : option NonNullDateRange) (selectedStart selectedEnd : option Date) :
  (if isControlled props
   then match Props.value props with
        | VRange r => Some r
        | _ => None
        end
   else Some (State.selectedStart st, State.selectedEnd st))
  = Some (selectedStart, selectedEnd) ->
  getSelectedRange h props st fallbackRange
  = Some
      (if isDateValidAndInRange h props selectedStart
       then ofNullable selectedStart
       else fallbackBound fallbackRange START,
       if doBoundaryDatesOverlap h props st selectedStart START
       then fallbackBound fallbackRange END
       else if isDateValidAndInRange h props selectedEnd
            then ofNullable selectedEnd
            else fallbackBound fallbackRange END).
Proof.
  intros E. unfold getSelectedRange. rewrite E. cbv zeta. unfold fst, snd.
  rewrite orNull_ofNullable. f_equal. f_equal.
  - now destruct fallbackRange as [[? ?]|].
  - destruct (doBoundaryDatesOverlap h props st selectedStart START).
    + simpl orNull. rewrite isDateValidAndInRange_null. now destruct fallbackRange as [[? ?]|].
    + rewrite orNull_ofNullable. now destruct fallbackRange as [[? ?]|].
Qed.

(** C1, as the code has it: the range is the external value in controlled mode
    and the internal selection in uncontrolled mode; in both modes the END date
    is suppressed when the START date overlaps the end date held in the state,
    and in both modes every bound that is unset, suppressed, invalid or out of
    range is replaced by the bound of the optional fallback range ([undefined]
    when none is given). *)
Theorem getSelectedRange_filtered (h : Host) (props : Props.t) (st : State.t)
    (fallbackRange : option NonNullDateRange) (selectedStart selectedEnd : option Date) :
  (isControlled props = true /\ Props.value props = VRange (selectedStart, selectedEnd))
  \/ (isControlled props = false
      /\ State.selectedStart st = selectedStart /\ State.selectedEnd st = selectedEnd) ->
  getSelectedRange h props st fallbackRange
  = Some
      (if isDateValidAndInRange h props selectedStart
       then ofNullable selectedStart
       else fallbackBound fallbackRange START,
       if doBoundaryDatesOverlap h props st selectedStart START
       then fallbackBound fallbackRange END
       else if isDateValidAndInRange h props selectedEnd
            then ofNullable selectedEnd
            else fallbackBound fallbackRange END).
Proof.
  intros [[Hc Hv] | (Hc & Hs & He)]; apply getSelectedRange_of_range; rewrite Hc.
  - now rewrite Hv.
  - now rewrite Hs, He.
Qed.

(** A controlled range lying after [maxDate] is shown as the fallback on both
    sides. *)
Lemma getSelectedRange_filtered_witness :
  getSelectedRange Sample.host Sample.controlledLate
    (reset Sample.host Sample.controlledLate) (Some (Sample.day 50, Sample.day 50))
  = Some (val (Sample.day 50), val (Sample.day 50)).
Proof.
  apply (getSelectedRange_filtered Sample.host Sample.controlledLate
           (reset Sample.host Sample.controlledLate) (Some (Sample.day 50, Sample.day 50))
           (Some (Sample.day 200)) (Some (Sample.day 300))).
  left. split; reflexivity.
Defined.

(** C1 as stated fails: in controlled mode an out-of-range external value is
    not returned verbatim, the validity filter replaces it too. *)
Lemma getSelectedRange_controlled_not_verbatim :
  isControlled Sample.controlledLate = true
  /\ getSelectedRange Sample.host Sample.controlledLate
       (reset Sample.host Sample.controlledLate) None
     = Some (undefined, undefined)
  /\ controlledRangeVerbatim Sample.host Sample.controlledLate
       (reset Sample.host Sample.controlledLate) None
       (Some (Sample.day 200), Some (Sample.day 300))
     = (val (Sample.day 200), val (Sample.day 300))
  /\ getSelectedRange Sample.host Sample.controlledLate
       (reset Sample.host Sample.controlledLate) None
     <> Some (controlledRangeVerbatim Sample.host Sample.controlledLate
                (reset Sample.host Sample.controlledLate) None
                (Some (Sample.day 200), Some (Sample.day 300))).
Proof.
  repeat split; try reflexivity. vm_compute. discriminate.
Qed.

(** ** Typing into a field *)

(** What holds of every change event: an empty string reports [null] for the
    edited boundary, paired with the other side; a candidate the wrapper
    parses to a valid in-range date is reported exactly when it does not
    overlap, and otherwise only updates the buffer, the hover string and (when
    uncontrolled) the selected value; a candidate the wrapper parses to no
    date, an invalid date or an out-of-range date reports nothing. *)
Lemma handleInputChange_callbacks (h : Host) (props : Props.t) (st : State.t)
    (text : string) (boundary : Boundary) :
  let maybeNextDate := parseDate h props (val text) in
  let result := handleInputChange h props st text boundary in
  let values' := getStateKeysAndValuesForBoundary props (fst result) boundary in
  (text = "" -> snd result = [onChange (pairedWithOther st None boundary)])
  /\ (text <> "" ->
      isDateValidAndInRange h props maybeNextDate = true ->
      doBoundaryDatesOverlap h props st maybeNextDate boundary = false ->
      snd result = [onChange (pairedWithOther st maybeNextDate boundary)])
  /\ (text <> "" ->
      isDateValidAndInRange h props maybeNextDate = true ->
      doBoundaryDatesOverlap h props st maybeNextDate boundary = true ->
      snd result = []
      /\ inputString values' = val text
      /\ hoverString values' = null
      /\ selectedValue values'
         = (if isControlled props
            then selectedValue (getStateKeysAndValuesForBoundary props st boundary)
            else maybeNextDate)
      /\ otherSelected (fst result) boundary = otherSelected st boundary)
  /\ (text <> "" ->
      isDateValidAndInRange h props maybeNextDate = false ->
      snd result = []).
Proof.
  intros maybeNextDate result values'. subst values' result.
  split; [|split; [|split]].
  - intros ->. now rewrite handleInputChange_empty, getDateRangeForCallback_pair.
  - intros Hne Hv Ho. rewrite handleInputChange_valid by assumption.
    fold maybeNextDate. now rewrite Ho, getDateRangeForCallback_pair.
  - intros Hne Hv Ho. split.
    + rewrite handleInputChange_valid by assumption. fold maybeNextDate. now rewrite Ho.
    + unfold handleInputChange. cbv zeta. fold maybeNextDate.
      rewrite (length_nonempty text Hne), Hv.
      destruct (isControlled props), st, boundary; repeat split; reflexivity.
  - intros Hne Hv. now rewrite handleInputChange_rejected.
Qed.

(** C3, the failing case: START holds day 20 and "someday", which the injected
    parser rejects with [false], is typed into the END field on day 50.  The
    wrapper turns the rejection into the current date, which is valid, in range
    and after START, so [onChange] is called with it and it is stored as the
    selected END. *)
Theorem handleInputChange_unparseable_commits :
  let focused := handleInputFocus Sample.host Sample.uncontrolled Sample.startTyped END in
  let result := handleInputChange Sample.host Sample.uncontrolled focused "someday" END in
  Props.parseDate Sample.uncontrolled (val "someday") (Props.locale Sample.uncontrolled)
  = PFalse
  /\ snd result = [onChange (Some (Sample.day 20), Some (now Sample.host))]
  /\ State.selectedEnd (fst result) = Some (now Sample.host).
Proof. repeat split. Qed.

(** ** Leaving a field *)

(** C4, as the code has it: a blur with a non-empty buffer whose parsed date is
    not a valid, in-range, non-overlapping date calls [onError] with that date
    paired with the other side's selected date.  Uncontrolled, the blurred
    boundary's selected value becomes the parsed date and its buffer is
    cleared; controlled, neither selection nor buffers change.  In both modes
    the focus flag of the field is cleared and [shouldSelectAfterUpdate] is
    reset to [false]. *)
Theorem handleInputBlur_invalid (h : Host) (props : Props.t) (st : State.t)
    (boundary : Boundary) :
  let values := getStateKeysAndValuesForBoundary props st boundary in
  let maybeNextDate := parseDate h props (inputString values) in
  let result := handleInputBlur h props st boundary in
  isInputEmpty (inputString values) = false ->
  isNextDateRangeValid h props st maybeNextDate boundary = false ->
  snd result = [onError (pairedWithOther st maybeNextDate boundary)]
  /\ (isControlled props = false ->
      fst result
      = setState st [ set_isInputFocused boundary false;
                      set_shouldSelectAfterUpdate (Some false);
                      set_inputString boundary null;
                      set_selectedValue boundary maybeNextDate ])
  /\ (isControlled props = false ->
      let values' := getStateKeysAndValuesForBoundary props (fst result) boundary in
      selectedValue values' = maybeNextDate
      /\ inputString values' = null
      /\ isInputFocused values' = false
      /\ otherSelected (fst result) boundary = otherSelected st boundary)
  /\ (isControlled props = true ->
      fst result
      = setState st [ set_isInputFocused boundary false;
                      set_shouldSelectAfterUpdate (Some false) ])
  /\ (isControlled props = true ->
      State.selectedStart (fst result) = State.selectedStart st
      /\ State.selectedEnd (fst result) = State.selectedEnd st
      /\ State.startInputString (fst result) = State.startInputString st
      /\ State.endInputString (fst result) = State.endInputString st
      /\ State.startHoverString (fst result) = State.startHoverString st
      /\ State.endHoverString (fst result) = State.endHoverString st
      /\ State.shouldSelectAfterUpdate (fst result) = Some false
      /\ isInputFocused (getStateKeysAndValuesForBoundary props (fst result) boundary)
         = false).
Proof.
  intros values maybeNextDate result Hne Hinv.
  assert (Hres : result
                 = (setState st
                      (if negb (isControlled props)
                       then [ set_isInputFocused boundary false;
                              set_shouldSelectAfterUpdate (Some false);
                              set_inputString boundary null;
                              set_selectedValue boundary maybeNextDate ]
                       else [ set_isInputFocused boundary false;
                              set_shouldSelectAfterUpdate (Some false) ]),
                    [onError (pairedWithOther st maybeNextDate boundary)])).
  { subst result. unfold handleInputBlur. cbv zeta. fold values. fold maybeNextDate.
    rewrite Hne, Hinv. simpl negb. cbv iota.
    rewrite getDateRangeForCallback_pair. now destruct (isControlled props). }
  rewrite Hres. clear Hres. simpl fst. simpl snd.
  split; [reflexivity|].
  split; [now intros ->|].
  split; [intros ->; destruct st, boundary; repeat split; reflexivity|].
  split; [now intros ->|].
  intros ->. destruct st, boundary; repeat split; reflexivity.
Qed.

(** After "20" in START and "10" in END, blurring END stores day 10 as the
    selected END, clears the END buffer and reports the overlapping pair. *)
Lemma handleInputBlur_invalid_witness :
  let result := handleInputBlur Sample.host Sample.uncontrolled Sample.endTyped END in
  snd result = [onError (Some (Sample.day 20), Some (Sample.day 10))]
  /\ State.selectedEnd (fst result) = Some (Sample.day 10)
  /\ State.endInputString (fst result) = null
  /\ State.isEndInputFocused (fst result) = false.
Proof.
  intros result.
  destruct (handleInputBlur_invalid Sample.host Sample.uncontrolled Sample.endTyped END
              eq_refl eq_refl) as (Herr & Hunc & _).
  split; [exact Herr|].
  subst result. rewrite (Hunc eq_refl). repeat split.
Defined.

(** C4 as stated fails: in controlled mode the blur changes more than the
    focus flag.  With [selectAllOnFocus] set, focusing the START field raised
    [shouldSelectAfterUpdate]; the blur of its out-of-range text resets it. *)
Lemma handleInputBlur_controlled_not_only_focus :
  isControlled Sample.controlledLate = true
  /\ State.startInputString Sample.lateFocused = val "200"
  /\ isNextDateRangeValid Sample.host Sample.controlledLate Sample.lateFocused
       (parseDate Sample.host Sample.controlledLate (val "200")) START = false
  /\ State.shouldSelectAfterUpdate Sample.lateFocused = Some true
  /\ State.shouldSelectAfterUpdate
       (fst (handleInputBlur Sample.host Sample.controlledLate Sample.lateFocused START))
     = Some false
  /\ fst (handleInputBlur Sample.host Sample.controlledLate Sample.lateFocused START)
     <> onlyFocusFlagCleared Sample.lateFocused START.
Proof.
  repeat split; try reflexivity. vm_compute. discriminate.
Qed.

(** ** The pointer leaves the calendar *)

(** C6, as the code has it: when the popover is open and the hovered range is
    null, focus goes to the END field if [boundaryToModify] is END and to the
    START field otherwise (also when it is unset), both hover strings are
    cleared and [lastFocusedField] takes the value of [boundaryToModify];
    [wasLastFocusChangeDueToHover] and every other field keep their value. *)
Theorem handleDateRangePickerHoverChange_leave (h : Host) (props : Props.t) (st : State.t)
    (hoveredRange : maybe DateRange) (hoveredBoundary : maybe Boundary) :
  State.isOpen st = true ->
  isNullish hoveredRange = true ->
  let st' := handleDateRangePickerHoverChange h props st hoveredRange hoveredBoundary in
  (State.boundaryToModify st = Some END ->
   State.isEndInputFocused st' = true /\ State.isStartInputFocused st' = false)
  /\ (State.boundaryToModify st <> Some END ->
      State.isStartInputFocused st' = true /\ State.isEndInputFocused st' = false)
  /\ State.startHoverString st' = null
  /\ State.endHoverString st' = null
  /\ State.lastFocusedField st' = State.boundaryToModify st
  /\ State.wasLastFocusChangeDueToHover st' = State.wasLastFocusChangeDueToHover st
  /\ State.isOpen st' = true
  /\ State.boundaryToModify st' = State.boundaryToModify st
  /\ State.startInputString st' = State.startInputString st
  /\ State.endInputString st' = State.endInputString st
  /\ State.selectedStart st' = State.selectedStart st
  /\ State.selectedEnd st' = State.selectedEnd st
  /\ State.shouldSelectAfterUpdate st' = State.shouldSelectAfterUpdate st.
Proof.
  intros Hopen Hnull st'. subst st'. unfold handleDateRangePickerHoverChange.
  rewrite Hopen. simpl negb. cbv iota.
  destruct hoveredRange as [| |range]; try discriminate Hnull;
    destruct st as [? btm ? ? ? ? ? ? ? ? ? ? ? ? ? ?]; simpl in *;
    (destruct btm as [[|]|]; repeat split; try reflexivity; try congruence; try assumption).
Qed.

(** The pointer leaves while START is the boundary to modify: focus returns to
    START, the hover strings go, and the hover flag set by the preceding hover
    is still set. *)
Lemma handleDateRangePickerHoverChange_leave_witness :
  let st' := handleDateRangePickerHoverChange Sample.host Sample.uncontrolled
               Sample.hovering null undefined in
  State.isStartInputFocused st' = true
  /\ State.isEndInputFocused st' = false
  /\ State.startHoverString st' = null
  /\ State.endHoverString st' = null
  /\ State.wasLastFocusChangeDueToHover st' = Some true.
Proof.
  intros st'.
  destruct (handleDateRangePickerHoverChange_leave Sample.host Sample.uncontrolled
              Sample.hovering null undefined eq_refl eq_refl)
    as (_ & Hstart & Hs & He & _ & Hflag & _).
  destruct Hstart as [Hsf Hef]; [discriminate|].
  split; [exact Hsf|]. split; [exact Hef|]. split; [exact Hs|]. split; [exact He|].
  subst st'. rewrite Hflag. reflexivity.
Defined.

(** C6 as stated fails: after a hover has set
    [wasLastFocusChangeDueToHover], the null hover that follows does not reset
    it to [false]. *)
Lemma handleDateRangePickerHoverChange_leave_keeps_flag :
  State.isOpen Sample.hovering = true
  /\ State.wasLastFocusChangeDueToHover Sample.hovering = Some true
  /\ State.wasLastFocusChangeDueToHover
       (handleDateRangePickerHoverChange Sample.host Sample.uncontrolled
          Sample.hovering null undefined)
     <> Some false.
Proof.
  repeat split; try reflexivity. vm_compute. discriminate.
Qed.

(** * Further properties of the component *)

(** ** Overlap and the effective range *)

Lemma isSameDay_sym (h : Host) (a b : Date) : isSameDay h a b = isSameDay h b a.
Proof.
  unfold isSameDay. destruct (startOfDay h a), (startOfDay h b); try reflexivity.
  apply Z.eqb_sym.
Qed.

Lemma calendarDay_le (h : Host) (t u : Z) : t <= u -> calendarDay h t <= calendarDay h u.
Proof.
  intros Hle. unfold calendarDay. apply Z.div_le_mono; [apply msPerDay_pos | lia].
Qed.

Lemma doBoundaryDatesOverlap_swap (h : Host) (props : Props.t)
    (st st' : State.t) (s e : Date) :
  State.selectedEnd st = Some e ->
  State.selectedStart st' = Some s ->
  doBoundaryDatesOverlap h props st (Some s) START
  = doBoundaryDatesOverlap h props st' (Some e) END.
Proof.
  intros He Hs. unfold doBoundaryDatesOverlap. cbv zeta.
  rewrite !selectedValue_other. unfold otherSelected. rewrite He, Hs.
  rewrite (isSameDay_sym h s e). now destruct s, e.
Qed.

(** The overlap test does not depend on the side it is asked from: a START
    candidate [s] overlaps the selected end [e] exactly when the END candidate
    [e] overlaps the selected start [s]. *)
Theorem doBoundaryDatesOverlap_symmetric (h : Host) (props : Props.t)
    (st st' : State.t) (s e : Date) :
  State.selectedEnd st = Some e ->
  State.selectedStart st' = Some s ->
  doBoundaryDatesOverlap h props st (Some s) START
  = doBoundaryDatesOverlap h props st' (Some e) END.
Proof. apply doBoundaryDatesOverlap_swap. Qed.

Lemma doBoundaryDatesOverlap_symmetric_witness :
  doBoundaryDatesOverlap Sample.host Sample.uncontrolled Sample.endTyped
    (Some (Sample.day 20)) START
  = doBoundaryDatesOverlap Sample.host Sample.uncontrolled Sample.endTyped
      (Some (Sample.day 10)) END.
Proof.
  apply (doBoundaryDatesOverlap_symmetric Sample.host Sample.uncontrolled
           Sample.endTyped Sample.endTyped (Sample.day 20) (Sample.day 10));
    reflexivity.
Defined.

(** A candidate that does not overlap a valid date on the other side is not
    after it (START) or before it (END), and lies on a different day unless
    single-day ranges are allowed. *)
Lemma no_overlap_ordered (h : Host) (props : Props.t) (st : State.t) (t u : Z) :
  State.selectedEnd st = Some (MkDate u) ->
  doBoundaryDatesOverlap h props st (Some (MkDate t)) START = false ->
  t <= u
  /\ (Props.allowSingleDayRange props = false -> calendarDay h t < calendarDay h u).
Proof.
  intros He Hno.
  assert (Hnot : ~ (u < t
                    \/ (Props.allowSingleDayRange props = false
                        /\ calendarDay h t = calendarDay h u))).
  { intros Hov.
    assert (Htrue : doBoundaryDatesOverlap h props st (Some (MkDate t)) START = true).
    { apply doBoundaryDatesOverlap_START. exists t, u. auto. }
    congruence. }
  assert (Hle : t <= u) by lia.
  split; [exact Hle|].
  intros Hallow. pose proof (calendarDay_le h t u Hle).
  assert (calendarDay h t <> calendarDay h u) by tauto. lia.
Qed.

Lemma getSelectedRange_bounds_valid (h : Host) (props : Props.t) (st : State.t)
    (a b : maybe Date) :
  getSelectedRange h props st None = Some (a, b) ->
  (forall d, a = val d -> isDateValidAndInRange h props (Some d) = true)
  /\ (forall d, b = val d -> isDateValidAndInRange h props (Some d) = true).
Proof.
  unfold getSelectedRange.
  destruct (if isControlled props then _ else _) as [[s e]|]; [|discriminate].
  cbv zeta. unfold fst, snd. intros E. injection E as <- <-.
  split; intros d.
  - rewrite orNull_ofNullable.
    destruct (isDateValidAndInRange h props s) eqn:Hv; [|discriminate].
    destruct s; [|discriminate]. intros E. injection E as <-. exact Hv.
  - destruct (doBoundaryDatesOverlap h props st s START).
    + simpl. discriminate.
    + rewrite orNull_ofNullable.
      destruct (isDateValidAndInRange h props e) eqn:Hv; [|discriminate].
      destruct e; [|discriminate]. intros E. injection E as <-. exact Hv.
Qed.

(** Without a fallback range, every date [getSelectedRange] returns is a valid
    date within [minDate] and [maxDate], in controlled and in uncontrolled
    mode alike. *)
Theorem getSelectedRange_returns_valid (h : Host) (props : Props.t) (st : State.t)
    (a b : maybe Date) :
  getSelectedRange h props st None = Some (a, b) ->
  (forall d, a = val d -> isDateValidAndInRange h props (Some d) = true)
  /\ (forall d, b = val d -> isDateValidAndInRange h props (Some d) = true).
Proof. apply getSelectedRange_bounds_valid. Qed.

Lemma getSelectedRange_returns_valid_witness :
  isDateValidAndInRange Sample.host Sample.uncontrolled (Some (Sample.day 20)) = true.
Proof.
  apply (proj1 (getSelectedRange_returns_valid Sample.host Sample.uncontrolled
                  Sample.endTyped (val (Sample.day 20)) undefined eq_refl)).
  reflexivity.
Defined.

(** In uncontrolled mode a full range returned by [getSelectedRange] is the
    internal selection and is never inverted: the start is not after the end,
    and falls on an earlier day unless single-day ranges are allowed. *)
Theorem getSelectedRange_uncontrolled_ordered (h : Host) (props : Props.t)
    (st : State.t) (s e : Date) :
  isControlled props = false ->
  getSelectedRange h props st None = Some (val s, val e) ->
  State.selectedStart st = Some s
  /\ State.selectedEnd st = Some e
  /\ exists t u,
      s = MkDate t /\ e = MkDate u /\ t <= u
      /\ (Props.allowSingleDayRange props = false -> calendarDay h t < calendarDay h u).
Proof.
  intros Hc Hr.
  destruct (getSelectedRange_bounds_valid h props st _ _ Hr) as [Hvs Hve].
  specialize (Hvs s eq_refl). specialize (Hve e eq_refl).
  rewrite (getSelectedRange_of_range h props st None
             (State.selectedStart st) (State.selectedEnd st)) in Hr
    by now rewrite Hc.
  injection Hr as Hs He. simpl fallbackBound in *.
  destruct (isDateValidAndInRange h props (State.selectedStart st)); [|discriminate].
  destruct (State.selectedStart st) as [s'|]; [|discriminate].
  injection Hs as ->.
  destruct (doBoundaryDatesOverlap h props st (Some s) START) eqn:Hov; [discriminate|].
  destruct (isDateValidAndInRange h props (State.selectedEnd st)); [|discriminate].
  destruct (State.selectedEnd st) as [e'|] eqn:Hend; [|discriminate].
  injection He as ->.
  split; [reflexivity|]. split; [reflexivity|].
  destruct (isDateValidAndInRange_true_valid h props _ Hvs) as [t Et].
  destruct (isDateValidAndInRange_true_valid h props _ Hve) as [u Eu].
  injection Et as ->. injection Eu as ->.
  exists t, u. split; [reflexivity|]. split; [reflexivity|].
  now apply (no_overlap_ordered h props st t u).
Qed.

Lemma getSelectedRange_uncontrolled_ordered_witness :
  State.selectedStart Scenario.ranged = Some (Sample.day 20)
  /\ State.selectedEnd Scenario.ranged = Some (Sample.day 30)
  /\ exists t u,
      Sample.day 20 = MkDate t /\ Sample.day 30 = MkDate u /\ t <= u
      /\ (Props.allowSingleDayRange Sample.uncontrolled = false ->
          calendarDay Sample.host t < calendarDay Sample.host u).
Proof.
  apply (getSelectedRange_uncontrolled_ordered Sample.host Sample.uncontrolled
           Scenario.ranged (Sample.day 20) (Sample.day 30)); reflexivity.
Defined.

(** ** Typing *)

(** After any change event the buffer of the edited field holds exactly the
    typed text and [shouldSelectAfterUpdate] is off; everything the state holds
    for the other field, the focus flags, the popover and the boundary
    bookkeeping are untouched. *)
Theorem handleInputChange_buffer_and_frame (h : Host) (props : Props.t) (st : State.t)
    (text : string) (boundary : Boundary) :
  let st' := fst (handleInputChange h props st text boundary) in
  inputString (getStateKeysAndValuesForBoundary props st' boundary) = val text
  /\ State.shouldSelectAfterUpdate st' = Some false
  /\ getStateKeysAndValuesForBoundary props st' (getOtherBoundary boundary)
     = getStateKeysAndValuesForBoundary props st (getOtherBoundary boundary)
  /\ isInputFocused (getStateKeysAndValuesForBoundary props st' boundary)
     = isInputFocused (getStateKeysAndValuesForBoundary props st boundary)
  /\ State.isOpen st' = State.isOpen st
  /\ State.boundaryToModify st' = State.boundaryToModify st
  /\ State.lastFocusedField st' = State.lastFocusedField st
  /\ State.wasLastFocusChangeDueToHover st' = State.wasLastFocusChangeDueToHover st.
Proof.
  unfold handleInputChange. cbv zeta.
  destruct text as [|c text].
  - simpl. destruct (isControlled props), st, boundary; repeat split.
  - change (Nat.eqb (String.length (String c text)) 0) with false. cbv iota.
    destruct (isDateValidAndInRange h props (parseDate h props (val (String c text))));
      destruct (isControlled props), st, boundary; repeat split.
Qed.

Lemma handleInputChange_callback_shape (h : Host) (props : Props.t) (st : State.t)
    (text : string) (boundary : Boundary) :
  (length (snd (handleInputChange h props st text boundary)) <= 1)%nat
  /\ forall c,
      In c (snd (handleInputChange h props st text boundary)) ->
      exists date,
        c = onChange (pairedWithOther st date boundary)
        /\ (date = None
            \/ (isDateValidAndInRange h props date = true
                /\ doBoundaryDatesOverlap h props st date boundary = false)).
Proof.
  destruct (string_dec text "") as [-> | Hne].
  - rewrite handleInputChange_empty, getDateRangeForCallback_pair.
    split; [simpl; lia|]. intros c [<- | []]. exists None. auto.
  - destruct (isDateValidAndInRange h props (parseDate h props (val text))) eqn:Hv.
    + rewrite (handleInputChange_valid h props st boundary text Hne Hv).
      destruct (doBoundaryDatesOverlap h props st (parseDate h props (val text)) boundary)
        eqn:Ho.
      * split; [simpl; lia | intros c []].
      * split; [simpl; lia|]. intros c [<- | []].
        exists (parseDate h props (val text)).
        rewrite getDateRangeForCallback_pair. auto.
    + rewrite (handleInputChange_rejected h props st boundary text Hne Hv).
      split; [simpl; lia | intros c []].
Qed.

(** Typing never reports an error and never reports a bad date: the only
    callback a change event can make is a single [onChange] whose edited side is
    [null] or a valid, in-range date that does not overlap the other side. *)
Theorem handleInputChange_commits_only_valid (h : Host) (props : Props.t) (st : State.t)
    (text : string) (boundary : Boundary) :
  (length (snd (handleInputChange h props st text boundary)) <= 1)%nat
  /\ forall c,
      In c (snd (handleInputChange h props st text boundary)) ->
      exists date,
        c = onChange (pairedWithOther st date boundary)
        /\ (date = None
            \/ (isDateValidAndInRange h props date = true
                /\ doBoundaryDatesOverlap h props st date boundary = false)).
Proof. apply handleInputChange_callback_shape. Qed.

(** A range reported while typing is never inverted: when both of its sides
    are valid dates the start is not after the end, and is on an earlier day
    unless single-day ranges are allowed. *)
Theorem handleInputChange_never_inverted (h : Host) (props : Props.t) (st : State.t)
    (text : string) (boundary : Boundary) (t u : Z) :
  In (onChange (Some (MkDate t), Some (MkDate u)))
     (snd (handleInputChange h props st text boundary)) ->
  t <= u
  /\ (Props.allowSingleDayRange props = false -> calendarDay h t < calendarDay h u).
Proof.
  intros Hin.
  destruct (handleInputChange_callback_shape h props st text boundary) as [_ Hall].
  destruct (Hall _ Hin) as (date & E & Hd).
  destruct boundary; simpl in E; injection E as E1 E2; subst.
  - destruct Hd as [Hd | [_ Hno]]; [discriminate|].
    apply (no_overlap_ordered h props st t u); [now symmetry | exact Hno].
  - destruct Hd as [Hd | [_ Hno]]; [discriminate|].
    assert (Hst : exists st', State.selectedEnd st' = Some (MkDate u)).
    { exists (assign st (set_selectedValue END (Some (MkDate u)))). now destruct st. }
    destruct Hst as [st' Hst'].
    apply (no_overlap_ordered h props st' t u Hst').
    rewrite (doBoundaryDatesOverlap_swap h props st' st (MkDate t) (MkDate u));
      [exact Hno | exact Hst' | now symmetry].
Qed.

(** Day 30 typed into END after day 20 in START is reported, in order. *)
Lemma handleInputChange_never_inverted_witness :
  20 * msPerDay <= 30 * msPerDay
  /\ (Props.allowSingleDayRange Sample.uncontrolled = false ->
      calendarDay Sample.host (20 * msPerDay) < calendarDay Sample.host (30 * msPerDay)).
Proof.
  apply (handleInputChange_never_inverted Sample.host Sample.uncontrolled
           (handleInputFocus Sample.host Sample.uncontrolled Sample.startTyped END)
           "30" END).
  left. reflexivity.
Defined.

(** ** Leaving and entering a field *)

Lemma handleInputBlur_unfold (h : Host) (props : Props.t) (st : State.t)
    (boundary : Boundary) :
  let values := getStateKeysAndValuesForBoundary props st boundary in
  let candidate := parseDate h props (inputString values) in
  handleInputBlur h props st boundary
  = if isInputEmpty (inputString values) then
      (setState st
         ([ set_isInputFocused boundary false; set_shouldSelectAfterUpdate (Some false) ]
          ++ if isControlled props
             then [ set_inputString boundary
                      (val (getFormattedDateString h (controlledValue values) props false)) ]
             else [ set_inputString boundary null; set_selectedValue boundary None ]),
       [])
    else if isNextDateRangeValid h props st candidate boundary then
      (setState st
         [ set_isInputFocused boundary false; set_shouldSelectAfterUpdate (Some false) ],
       [])
    else
      (setState st
         ([ set_isInputFocused boundary false; set_shouldSelectAfterUpdate (Some false) ]
          ++ if isControlled props then []
             else [ set_inputString boundary null; set_selectedValue boundary candidate ]),
       [ onError (pairedWithOther st candidate boundary) ]).
Proof.
  intros values candidate. unfold handleInputBlur. cbv zeta.
  fold values. fold candidate. rewrite getDateRangeForCallback_pair.
  destruct (isInputEmpty (inputString values)), (isControlled props),
    (isNextDateRangeValid h props st candidate boundary); reflexivity.
Qed.

(** A blur never calls [onChange].  It makes at most one callback, an
    [onError], and only when the buffer is not empty and the date parsed from
    it is not a valid, in-range, non-overlapping date; that date is reported on
    the blurred side, paired with the other side's selected date.  The blurred
    field loses its focus flag and nothing the state holds for the other field
    changes. *)
Theorem handleInputBlur_reports_only_errors (h : Host) (props : Props.t) (st : State.t)
    (boundary : Boundary) :
  let values := getStateKeysAndValuesForBoundary props st boundary in
  let candidate := parseDate h props (inputString values) in
  let result := handleInputBlur h props st boundary in
  (length (snd result) <= 1)%nat
  /\ (forall c,
      In c (snd result) ->
      c = onError (pairedWithOther st candidate boundary)
      /\ isInputEmpty (inputString values) = false
      /\ isNextDateRangeValid h props st candidate boundary = false)
  /\ isInputFocused (getStateKeysAndValuesForBoundary props (fst result) boundary) = false
  /\ getStateKeysAndValuesForBoundary props (fst result) (getOtherBoundary boundary)
     = getStateKeysAndValuesForBoundary props st (getOtherBoundary boundary)
  /\ State.isOpen (fst result) = State.isOpen st
  /\ State.boundaryToModify (fst result) = State.boundaryToModify st
  /\ State.lastFocusedField (fst result) = State.lastFocusedField st.
Proof.
  intros values candidate result. subst result.
  rewrite handleInputBlur_unfold. fold values. fold candidate.
  destruct (isInputEmpty (inputString values)) eqn:He;
    [|destruct (isNextDateRangeValid h props st candidate boundary) eqn:Hv];
    (split; [simpl; lia|]);
    (split; [intros c Hin; simpl in Hin; try contradiction;
             destruct Hin as [<- | []]; auto|]);
    destruct (isControlled props), st, boundary; repeat split.
Qed.

(** Leaving an emptied field makes no callback.  Uncontrolled, the selected
    date of that side and its buffer are reset to [null], and without a hover
    string the field displays nothing; controlled, the selection is kept and
    the buffer is refilled with the formatted external value. *)
Theorem handleInputBlur_empty (h : Host) (props : Props.t) (st : State.t)
    (boundary : Boundary) :
  let values := getStateKeysAndValuesForBoundary props st boundary in
  let result := handleInputBlur h props st boundary in
  let values' := getStateKeysAndValuesForBoundary props (fst result) boundary in
  isInputEmpty (inputString values) = true ->
  snd result = []
  /\ (isControlled props = false ->
      selectedValue values' = None
      /\ inputString values' = null
      /\ (isNullish (hoverString values) = true ->
          getInputDisplayString h props (fst result) boundary = ""))
  /\ (isControlled props = true ->
      selectedValue values' = selectedValue values
      /\ inputString values'
         = val (getFormattedDateString h (controlledValue values) props false)).
Proof.
  intros values result values' He. subst values' result.
  rewrite handleInputBlur_unfold. fold values. rewrite He.
  split; [reflexivity|].
  split; intros ->.
  - subst values. destruct st, boundary; simpl in *;
      (split; [reflexivity|]); (split; [reflexivity|]);
      intros Hh; unfold getInputDisplayString; simpl;
      match goal with
      | |- match ?x with _ => _ end = _ => destruct x; try discriminate; reflexivity
      end.
  - subst values. destruct st, boundary; split; reflexivity.
Qed.

(** The START field of a full selection is emptied and left: START is
    deselected, END is kept. *)
Lemma handleInputBlur_empty_witness :
  let emptied :=
    fst (handleInputChange Sample.host Sample.uncontrolled Scenario.rangedFocused "" START) in
  let result := handleInputBlur Sample.host Sample.uncontrolled emptied START in
  snd result = []
  /\ State.selectedStart (fst result) = None
  /\ State.selectedEnd (fst result) = Some (Sample.day 30)
  /\ getInputDisplayString Sample.host Sample.uncontrolled (fst result) START = "".
Proof.
  intros emptied result.
  destruct (handleInputBlur_empty Sample.host Sample.uncontrolled emptied START eq_refl)
    as (Hcb & Hunc & _).
  destruct (Hunc eq_refl) as (Hsel & _ & Hdisplay).
  split; [exact Hcb|]. split; [exact Hsel|]. split; [reflexivity|].
  apply Hdisplay. reflexivity.
Defined.

Lemma handleInputFocus_values (h : Host) (props : Props.t) (st : State.t)
    (boundary : Boundary) :
  let st' := handleInputFocus h props st boundary in
  let values := getStateKeysAndValuesForBoundary props st boundary in
  inputString (getStateKeysAndValuesForBoundary props st' boundary)
  = val (getFormattedDateString h (ofNullable (selectedValue values)) props true)
  /\ isInputFocused (getStateKeysAndValuesForBoundary props st' boundary) = true
  /\ hoverString (getStateKeysAndValuesForBoundary props st' boundary) = hoverString values
  /\ State.selectedStart st' = State.selectedStart st
  /\ State.selectedEnd st' = State.selectedEnd st
  /\ State.isOpen st' = true
  /\ State.lastFocusedField st' = Some boundary
  /\ State.wasLastFocusChangeDueToHover st' = Some false
  /\ getStateKeysAndValuesForBoundary props st' (getOtherBoundary boundary)
     = getStateKeysAndValuesForBoundary props st (getOtherBoundary boundary).
Proof.
  destruct st, boundary; repeat split.
Qed.

Lemma doBoundaryDatesOverlap_same_selection (h : Host) (props : Props.t)
    (st st' : State.t) (date : option Date) (boundary : Boundary) :
  State.selectedStart st' = State.selectedStart st ->
  State.selectedEnd st' = State.selectedEnd st ->
  doBoundaryDatesOverlap h props st' date boundary
  = doBoundaryDatesOverlap h props st date boundary.
Proof.
  intros Hs He. unfold doBoundaryDatesOverlap. cbv zeta.
  rewrite !selectedValue_other. unfold otherSelected. now rewrite Hs, He.
Qed.

(** Entering a field and leaving it again is silent when the formatter and the
    parser agree on the selected date: if the field's selected date is valid,
    in range and not overlapping, and the text [formatDate] gives for it is
    non-empty, is none of the guarded messages and is parsed back to the same
    date, then the blur that follows the focus makes no callback and the
    selection is what it was. *)
Theorem focus_then_blur_is_silent (h : Host) (props : Props.t) (st : State.t)
    (boundary : Boundary) (d : Date) :
  let text := Props.formatDate props d (Props.locale props) in
  selectedValue (getStateKeysAndValuesForBoundary props st boundary) = Some d ->
  isNextDateRangeValid h props st (Some d) boundary = true ->
  text <> "" ->
  text <> Props.outOfRangeMessage props ->
  text <> Props.invalidDateMessage props ->
  Props.parseDate props (val text) (Props.locale props) = PDate d ->
  let result := handleInputBlur h props (handleInputFocus h props st boundary) boundary in
  snd result = []
  /\ State.selectedStart (fst result) = State.selectedStart st
  /\ State.selectedEnd (fst result) = State.selectedEnd st
  /\ inputString (getStateKeysAndValuesForBoundary props (fst result) boundary) = val text.
Proof.
  intros text Hsel Hvalid Hne Hno Hni Hparse result. subst result.
  destruct (handleInputFocus_values h props st boundary)
    as (Hbuf & _ & _ & Hs & He & _).
  set (st1 := handleInputFocus h props st boundary) in *.
  assert (Hv : isValid (Some d) = true).
  { unfold isNextDateRangeValid, isDateValidAndInRange in Hvalid.
    now apply andb_true_iff in Hvalid as [[Hv _]%andb_true_iff _]. }
  assert (Htext : inputString (getStateKeysAndValuesForBoundary props st1 boundary)
                  = val text).
  { rewrite Hbuf, Hsel. unfold getFormattedDateString. simpl ofNullable. cbv iota.
    now rewrite Hv. }
  assert (Hcand : parseDate h props (val text) = Some d).
  { rewrite (parseDate_parsed h props text Hno Hni). now rewrite Hparse. }
  assert (Hvalid1 : isNextDateRangeValid h props st1 (Some d) boundary = true).
  { unfold isNextDateRangeValid in *.
    now rewrite (doBoundaryDatesOverlap_same_selection h props st st1 _ _ Hs He). }
  rewrite handleInputBlur_unfold. rewrite Htext.
  unfold isInputEmpty. rewrite (length_nonempty text Hne).
  rewrite Hcand, Hvalid1. cbv iota.
  split; [reflexivity|].
  unfold fst.
  assert (Hframe : forall s : State.t,
             State.selectedStart
               (setState s [ set_isInputFocused boundary false;
                             set_shouldSelectAfterUpdate (Some false) ])
             = State.selectedStart s
             /\ State.selectedEnd
                  (setState s [ set_isInputFocused boundary false;
                                set_shouldSelectAfterUpdate (Some false) ])
                = State.selectedEnd s
             /\ inputString
                  (getStateKeysAndValuesForBoundary props
                     (setState s [ set_isInputFocused boundary false;
                                   set_shouldSelectAfterUpdate (Some false) ]) boundary)
                = inputString (getStateKeysAndValuesForBoundary props s boundary)).
  { intros s. destruct s, boundary; repeat split. }
  destruct (Hframe st1) as (Hs1 & He1 & Hb1).
  rewrite Hs1, He1, Hb1, Hs, He. auto.
Qed.

(** With the decimal day formatter and parser, re-entering and leaving the
    START field of the selection 20 to 30 reports nothing. *)
Lemma focus_then_blur_is_silent_witness :
  let result :=
    handleInputBlur Sample.host Sample.uncontrolled
      (handleInputFocus Sample.host Sample.uncontrolled Scenario.ranged START) START in
  snd result = []
  /\ State.selectedStart (fst result) = Some (Sample.day 20)
  /\ State.selectedEnd (fst result) = Some (Sample.day 30)
  /\ State.startInputString (fst result) = val "20".
Proof.
  assert (H1 : "20" <> "") by discriminate.
  assert (H2 : "20" <> Props.outOfRangeMessage Sample.uncontrolled) by discriminate.
  assert (H3 : "20" <> Props.invalidDateMessage Sample.uncontrolled) by discriminate.
  exact (focus_then_blur_is_silent Sample.host Sample.uncontrolled Scenario.ranged START
           (Sample.day 20) eq_refl eq_refl H1 H2 H3 eq_refl).
Defined.




(** ** The calendar *)

Lemma formatDate_rejected (h : Host) (props : Props.t) (date : option Date) :
  isDateValidAndInRange h props date = false -> formatDate h props date = "".
Proof. intros Hv. unfold formatDate. destruct date; [now rewrite Hv | reflexivity]. Qed.

Lemma getSelectedRange_defined (h : Host) (props : Props.t) (st : State.t)
    (fallbackRange : option NonNullDateRange) :
  Props.value props <> VNull ->
  exists range, getSelectedRange h props st fallbackRange = Some range.
Proof.
  intros Hv. unfold getSelectedRange, isControlled.
  destruct (Props.value props) as [| |[s e]]; [| congruence |]; eexists; reflexivity.
Qed.

Section CalendarFacts.

Variable h : Host.
Variable props : Props.t.
Variable opts : Options.t.
Variable isSameTime : maybe Date -> maybe Date -> bool.

Lemma pickerLocals_defined (st : State.t) (selectedRange : DateRange) (enter : bool) :
  Props.value props <> VNull \/ isNullish (Options.timePrecision opts) = true ->
  exists l, pickerLocals h props opts isSameTime st selectedRange enter = Some l.
Proof.
  intros Hok. unfold pickerLocals, getIsOpenValueWhenDateChanges.
  destruct selectedRange as [[s|] [e|]]; try (eexists; reflexivity).
  destruct (Options.closeOnSelection opts).
  - destruct (isNullish (Options.timePrecision opts)) eqn:Ht; [eexists; reflexivity|].
    destruct Hok as [Hv | Hn]; [|discriminate].
    destruct (getSelectedRange_defined h props st
                (Some (startOfDay h (now h), startOfDay h (now h))) Hv) as [[a b] ->].
    destruct (_ && _); eexists; reflexivity.
  - destruct (State.lastFocusedField st) as [[|]|]; eexists; reflexivity.
Qed.

Lemma handleDateRangePickerChange_open (st : State.t) (selectedRange : DateRange)
    (enter : bool) (st' : State.t) (called : list Callback) :
  State.isOpen st = true ->
  handleDateRangePickerChange h props opts isSameTime st selectedRange enter
  = Some (st', called) ->
  exists l,
    pickerLocals h props opts isSameTime st selectedRange enter = Some l
    /\ called = [onChange selectedRange]
    /\ st' = setState st
               ([ set_boundaryToModify (l_boundaryToModify l);
                  set_hoverString END (l_endHoverString l);
                  set_inputString END (val (formatDate h props (snd selectedRange)));
                  set_isInputFocused END (l_isEndInputFocused l);
                  set_isOpen (l_isOpen l);
                  set_isInputFocused START (l_isStartInputFocused l);
                  set_hoverString START (l_startHoverString l);
                  set_inputString START (val (formatDate h props (fst selectedRange)));
                  set_wasLastFocusChangeDueToHover (Some false) ]
                ++ if isControlled props then []
                   else [ set_selectedValue END (snd selectedRange);
                          set_selectedValue START (fst selectedRange) ]).
Proof.
  intros Hopen. unfold handleDateRangePickerChange. rewrite Hopen. simpl negb. cbv iota.
  destruct (pickerLocals h props opts isSameTime st selectedRange enter) as [l|];
    [|discriminate].
  destruct selectedRange as [s e]. intros E. injection E as <- <-.
  exists l. split; [reflexivity|]. split; [reflexivity|].
  now destruct (isControlled props).
Qed.

Lemma pickerLocals_hover_cleared (st : State.t) (selectedRange : DateRange) (enter : bool)
    (l : PickerLocals) :
  pickerLocals h props opts isSameTime st selectedRange enter = Some l ->
  isNullish (l_startHoverString l) = true /\ isNullish (l_endHoverString l) = true.
Proof.
  unfold pickerLocals. destruct selectedRange as [[s|] [e|]];
    destruct (isNullish (Options.timePrecision opts));
    try (intros E; injection E as <-; split; reflexivity);
    (destruct (Options.closeOnSelection opts);
     [ destruct (getIsOpenValueWhenDateChanges h props opts isSameTime st s e);
       [|discriminate]; destruct enter
     | destruct (State.lastFocusedField st) as [[|]|] ];
     intros E; injection E as <-; split; reflexivity).
Qed.

End CalendarFacts.

(** While the popover is closed the calendar is ignored: a selection change, a
    hover change and an Enter key press leave the state as it is and make no
    callback. *)
Theorem closed_popover_ignores_calendar (h : Host) (props : Props.t) (opts : Options.t)
    (isSameTime : maybe Date -> maybe Date -> bool) (st : State.t) :
  State.isOpen st = false ->
  (forall selectedRange enter,
      handleDateRangePickerChange h props opts isSameTime st selectedRange enter
      = Some (st, []))
  /\ (forall hoveredRange hoveredBoundary,
      handleDateRangePickerHoverChange h props st hoveredRange hoveredBoundary = st)
  /\ (forall e,
      which e = Keys.ENTER ->
      handleInputKeyDown h props opts isSameTime st e = Some (st, [], false)).
Proof.
  intros Hclosed.
  assert (Hchange : forall selectedRange enter,
             handleDateRangePickerChange h props opts isSameTime st selectedRange enter
             = Some (st, [])).
  { intros. unfold handleDateRangePickerChange. now rewrite Hclosed. }
  split; [exact Hchange|]. split.
  - intros. unfold handleDateRangePickerHoverChange. now rewrite Hclosed.
  - intros e He. unfold handleInputKeyDown. cbv zeta. rewrite He.
    change (Keys.ENTER =? Keys.TAB) with false. rewrite Z.eqb_refl, !andb_true_r.
    cbv iota. rewrite !Hchange.
    destruct (State.lastFocusedField st) as [[|]|]; reflexivity.
Qed.

(** Tab out of END closes the popover; the calendar click that follows is
    ignored. *)
Lemma closed_popover_ignores_calendar_witness :
  let closed :=
    setState Sample.endTyped
      [ set_isInputFocused END false; set_isOpen false;
        set_isInputFocused START false; set_wasLastFocusChangeDueToHover (Some false) ] in
  handleInputKeyDown Sample.host Sample.uncontrolled Scenario.options Scenario.sameTime
    Sample.endTyped Scenario.tab = Some (closed, [], false)
  /\ handleDateRangePickerChange Sample.host Sample.uncontrolled Scenario.options
       Scenario.sameTime closed (Some (Sample.day 1), Some (Sample.day 2)) false
     = Some (closed, []).
Proof.
  intros closed. split; [reflexivity|].
  apply (proj1 (closed_popover_ignores_calendar Sample.host Sample.uncontrolled
                  Scenario.options Scenario.sameTime closed eq_refl)).
Defined.

(** An open popover reports every calendar selection: when the handler
    returns, it has called [onChange] exactly once with the range as received,
    without a validity check.  Both buffers are rewritten from the range, to the
    empty string for a date that is unset, invalid or out of range; both hover
    strings are cleared and the hover flag is reset.  The internal selection
    becomes the range in uncontrolled mode and is left alone in controlled
    mode. *)
Theorem handleDateRangePickerChange_reports_raw_range (h : Host) (props : Props.t)
    (opts : Options.t) (isSameTime : maybe Date -> maybe Date -> bool) (st : State.t)
    (selectedRange : DateRange) (enter : bool) (st' : State.t) (called : list Callback) :
  State.isOpen st = true ->
  handleDateRangePickerChange h props opts isSameTime st selectedRange enter
  = Some (st', called) ->
  called = [onChange selectedRange]
  /\ State.startInputString st' = val (formatDate h props (fst selectedRange))
  /\ State.endInputString st' = val (formatDate h props (snd selectedRange))
  /\ (isDateValidAndInRange h props (fst selectedRange) = false ->
      State.startInputString st' = val "")
  /\ (isDateValidAndInRange h props (snd selectedRange) = false ->
      State.endInputString st' = val "")
  /\ isNullish (State.startHoverString st') = true
  /\ isNullish (State.endHoverString st') = true
  /\ State.wasLastFocusChangeDueToHover st' = Some false
  /\ (isControlled props = false ->
      State.selectedStart st' = fst selectedRange
      /\ State.selectedEnd st' = snd selectedRange)
  /\ (isControlled props = true ->
      State.selectedStart st' = State.selectedStart st
      /\ State.selectedEnd st' = State.selectedEnd st).
Proof.
  intros Hopen Hres.
  destruct (handleDateRangePickerChange_open h props opts isSameTime st selectedRange
              enter st' called Hopen Hres) as (l & Hl & -> & ->).
  destruct (pickerLocals_hover_cleared h props opts isSameTime st selectedRange enter l Hl)
    as [Hhs Hhe].
  assert (Hs : State.startInputString
                 (setState st
                    ([ set_boundaryToModify (l_boundaryToModify l);
                       set_hoverString END (l_endHoverString l);
                       set_inputString END (val (formatDate h props (snd selectedRange)));
                       set_isInputFocused END (l_isEndInputFocused l);
                       set_isOpen (l_isOpen l);
                       set_isInputFocused START (l_isStartInputFocused l);
                       set_hoverString START (l_startHoverString l);
                       set_inputString START (val (formatDate h props (fst selectedRange)));
                       set_wasLastFocusChangeDueToHover (Some false) ]
                     ++ if isControlled props then []
                        else [ set_selectedValue END (snd selectedRange);
                               set_selectedValue START (fst selectedRange) ]))
               = val (formatDate h props (fst selectedRange))).
  { destruct (isControlled props), st; reflexivity. }
  assert (He : State.endInputString
                 (setState st
                    ([ set_boundaryToModify (l_boundaryToModify l);
                       set_hoverString END (l_endHoverString l);
                       set_inputString END (val (formatDate h props (snd selectedRange)));
                       set_isInputFocused END (l_isEndInputFocused l);
                       set_isOpen (l_isOpen l);
                       set_isInputFocused START (l_isStartInputFocused l);
                       set_hoverString START (l_startHoverString l);
                       set_inputString START (val (formatDate h props (fst selectedRange)));
                       set_wasLastFocusChangeDueToHover (Some false) ]
                     ++ if isControlled props then []
                        else [ set_selectedValue END (snd selectedRange);
                               set_selectedValue START (fst selectedRange) ]))
               = val (formatDate h props (snd selectedRange))).
  { destruct (isControlled props), st; reflexivity. }
  split; [reflexivity|]. split; [exact Hs|]. split; [exact He|].
  split; [intros Hv; now rewrite Hs, (formatDate_rejected h props _ Hv)|].
  split; [intros Hv; now rewrite He, (formatDate_rejected h props _ Hv)|].
  split; [destruct (isControlled props), st; exact Hhs|].
  split; [destruct (isControlled props), st; exact Hhe|].
  split; [destruct (isControlled props), st; reflexivity|].
  split; intros ->; destruct st; split; reflexivity.
Qed.

(** A calendar click on day 200, beyond [maxDate], is reported as it is while
    the START buffer is emptied. *)
Lemma handleDateRangePickerChange_reports_raw_range_witness :
  exists st',
    handleDateRangePickerChange Sample.host Sample.uncontrolled Scenario.options
      Scenario.sameTime Scenario.rangedFocused (Some (Sample.day 200), None) false
    = Some (st', [onChange (Some (Sample.day 200), None)])
    /\ State.startInputString st' = val ""
    /\ State.selectedStart st' = Some (Sample.day 200).
Proof.
  eexists. split; [reflexivity|].
  destruct (handleDateRangePickerChange_reports_raw_range Sample.host Sample.uncontrolled
              Scenario.options Scenario.sameTime Scenario.rangedFocused
              (Some (Sample.day 200), None) false _ _ eq_refl eq_refl)
    as (_ & _ & _ & Hempty & _ & _ & _ & _ & Hunc & _).
  split; [apply Hempty; reflexivity | apply (Hunc eq_refl)].
Defined.

Lemma handleDateRangePickerChange_flags (h : Host) (props : Props.t) (opts : Options.t)
    (isSameTime : maybe Date -> maybe Date -> bool) (st : State.t)
    (selectedRange : DateRange) (enter : bool) (st' : State.t) (called : list Callback) :
  State.isOpen st = true ->
  handleDateRangePickerChange h props opts isSameTime st selectedRange enter
  = Some (st', called) ->
  exists l,
    pickerLocals h props opts isSameTime st selectedRange enter = Some l
    /\ State.isOpen st' = l_isOpen l
    /\ State.isStartInputFocused st' = l_isStartInputFocused l
    /\ State.isEndInputFocused st' = l_isEndInputFocused l
    /\ State.boundaryToModify st' = l_boundaryToModify l
    /\ State.lastFocusedField st' = State.lastFocusedField st.
Proof.
  intros Hopen Hres.
  destruct (handleDateRangePickerChange_open h props opts isSameTime st selectedRange
              enter st' called Hopen Hres) as (l & Hl & _ & ->).
  exists l. split; [exact Hl|].
  destruct (isControlled props), st; repeat split.
Qed.

(** Focus after a calendar selection when no time picker is configured.  The
    handler returns; the two fields are never both focused; the popover closes
    exactly when the range is complete and [closeOnSelection] is set.  An unset
    start focuses START; a start without an end focuses END; a complete range
    that closes the popover focuses END only if it was submitted with Enter;
    a complete range that leaves the popover open focuses START if START was
    the last focused field and END otherwise. *)
Theorem handleDateRangePickerChange_focus_policy (h : Host) (props : Props.t)
    (opts : Options.t) (isSameTime : maybe Date -> maybe Date -> bool) (st : State.t)
    (selectedRange : DateRange) (enter : bool) :
  isNullish (Options.timePrecision opts) = true ->
  State.isOpen st = true ->
  exists st' called,
    handleDateRangePickerChange h props opts isSameTime st selectedRange enter
    = Some (st', called)
    /\ State.isStartInputFocused st' && State.isEndInputFocused st' = false
    /\ (State.isOpen st' = false
        <-> (exists s e, selectedRange = (Some s, Some e))
            /\ Options.closeOnSelection opts = true)
    /\ (fst selectedRange = None ->
        State.isStartInputFocused st' = true /\ State.isEndInputFocused st' = false)
    /\ (forall s, selectedRange = (Some s, None) ->
        State.isStartInputFocused st' = false /\ State.isEndInputFocused st' = true)
    /\ (forall s e, selectedRange = (Some s, Some e) ->
        Options.closeOnSelection opts = true ->
        State.isStartInputFocused st' = false /\ State.isEndInputFocused st' = enter)
    /\ (forall s e, selectedRange = (Some s, Some e) ->
        Options.closeOnSelection opts = false ->
        State.lastFocusedField st = Some START ->
        State.isStartInputFocused st' = true /\ State.isEndInputFocused st' = false)
    /\ (forall s e, selectedRange = (Some s, Some e) ->
        Options.closeOnSelection opts = false ->
        State.lastFocusedField st <> Some START ->
        State.isStartInputFocused st' = false /\ State.isEndInputFocused st' = true).
Proof.
  intros Hnt Hopen.
  destruct (pickerLocals_defined h props opts isSameTime st selectedRange enter
              (or_intror Hnt)) as [l Hl].
  assert (Hres : exists st' called,
             handleDateRangePickerChange h props opts isSameTime st selectedRange enter
             = Some (st', called)).
  { unfold handleDateRangePickerChange. rewrite Hopen, Hl. simpl negb. cbv iota.
    destruct selectedRange. eexists. eexists. reflexivity. }
  destruct Hres as (st' & called & Hres). exists st', called. split; [exact Hres|].
  destruct (handleDateRangePickerChange_flags h props opts isSameTime st selectedRange
              enter st' called Hopen Hres) as (l' & Hl' & Ho & Hsf & Hef & _).
  rewrite Hl in Hl'. injection Hl' as <-. rewrite Ho, Hsf, Hef. clear Ho Hsf Hef Hres.
  unfold pickerLocals, getIsOpenValueWhenDateChanges in Hl. rewrite Hnt in Hl.
  destruct selectedRange as [[s|] [e|]]; simpl in Hl.
  - destruct (Options.closeOnSelection opts) eqn:Hc.
    + destruct enter; injection Hl as <-; simpl;
        repeat split; try congruence; eauto; try (intros; discriminate).
    + destruct (State.lastFocusedField st) as [[|]|] eqn:Hlast;
        injection Hl as <-; simpl;
        repeat split; try congruence; try (intros [_ ?]; discriminate);
          try (intros; discriminate).
  - injection Hl as <-; simpl.
    repeat split; try congruence; try (intros; discriminate);
      intros [(s' & e' & E) _]; discriminate.
  - injection Hl as <-; simpl.
    repeat split; try congruence; try (intros; discriminate);
      intros [(s' & e' & E) _]; discriminate.
  - injection Hl as <-; simpl.
    repeat split; try congruence; try (intros; discriminate);
      intros [(s' & e' & E) _]; discriminate.
Qed.

(** Completing the range 20 to 30 from the calendar closes the popover and
    focuses neither field. *)
Lemma handleDateRangePickerChange_focus_policy_witness :
  exists st' called,
    handleDateRangePickerChange Sample.host Sample.uncontrolled Scenario.options
      Scenario.sameTime Scenario.rangedFocused
      (Some (Sample.day 20), Some (Sample.day 40)) false = Some (st', called)
    /\ State.isOpen st' = false
    /\ State.isStartInputFocused st' = false
    /\ State.isEndInputFocused st' = false.
Proof.
  destruct (handleDateRangePickerChange_focus_policy Sample.host Sample.uncontrolled
              Scenario.options Scenario.sameTime Scenario.rangedFocused
              (Some (Sample.day 20), Some (Sample.day 40)) false eq_refl eq_refl)
    as (st' & called & Hres & _ & Hclose & _ & _ & Hfull & _).
  exists st', called. split; [exact Hres|].
  split; [apply Hclose; split; [eauto | reflexivity]|].
  exact (Hfull _ _ eq_refl eq_refl).
Defined.



(** ** The keyboard *)

(** Tab.  The handler makes no callback and touches neither selection nor
    buffers.  Tab from a last-focused START, and Shift+Tab from a last-focused
    END, move the focus flag to the other field, keep the popover open and
    prevent the browser's default; every other Tab clears both focus flags,
    closes the popover and lets the default proceed.  The two fields are never
    both focused afterwards. *)
Theorem handleInputKeyDown_tab (h : Host) (props : Props.t) (opts : Options.t)
    (isSameTime : maybe Date -> maybe Date -> bool) (st : State.t) (e : KeyboardEvent) :
  which e = Keys.TAB ->
  exists st' prevented,
    handleInputKeyDown h props opts isSameTime st e = Some (st', [], prevented)
    /\ (prevented = true
        <-> (State.lastFocusedField st = Some START /\ shiftKey e = false)
            \/ (State.lastFocusedField st = Some END /\ shiftKey e = true))
    /\ State.isOpen st' = prevented
    /\ (State.lastFocusedField st = Some START -> shiftKey e = false ->
        State.isStartInputFocused st' = false /\ State.isEndInputFocused st' = true)
    /\ (State.lastFocusedField st = Some END -> shiftKey e = true ->
        State.isStartInputFocused st' = true /\ State.isEndInputFocused st' = false)
    /\ (prevented = false ->
        State.isStartInputFocused st' = false /\ State.isEndInputFocused st' = false)
    /\ State.isStartInputFocused st' && State.isEndInputFocused st' = false
    /\ State.wasLastFocusChangeDueToHover st' = Some false
    /\ State.selectedStart st' = State.selectedStart st
    /\ State.selectedEnd st' = State.selectedEnd st
    /\ State.startInputString st' = State.startInputString st
    /\ State.endInputString st' = State.endInputString st
    /\ State.lastFocusedField st' = State.lastFocusedField st.
Proof.
  intros Htab. unfold handleInputKeyDown. cbv zeta. rewrite Htab, Z.eqb_refl. cbv iota.
  destruct st as [? ? last ? ? ? ? ? ? ? ? ? ? ? ? ?]. simpl State.lastFocusedField.
  destruct last as [[|]|], (shiftKey e); simpl;
    eexists; eexists; (split; [reflexivity|]); simpl;
    repeat split; try congruence; try tauto;
    try (intros [[? ?] | [? ?]]; congruence).
Qed.

(** Tab in the START field of the selection 20 to 30 moves on to END and keeps
    the popover open. *)
Lemma handleInputKeyDown_tab_witness :
  exists st',
    handleInputKeyDown Sample.host Sample.uncontrolled Scenario.options Scenario.sameTime
      Scenario.rangedFocused Scenario.tab = Some (st', [], true)
    /\ State.isOpen st' = true
    /\ State.isStartInputFocused st' = false
    /\ State.isEndInputFocused st' = true.
Proof.
  destruct (handleInputKeyDown_tab Sample.host Sample.uncontrolled Scenario.options
              Scenario.sameTime Scenario.rangedFocused Scenario.tab eq_refl)
    as (st' & prevented & Hres & Hprev & Hopen & Hstart & _).
  assert (Hp : prevented = true) by (apply Hprev; left; split; reflexivity).
  rewrite Hp in Hres, Hopen.
  exists st'. split; [exact Hres|]. split; [exact Hopen|].
  exact (Hstart eq_refl eq_refl).
Defined.

(** Enter commits without validation.  With the popover open, Enter in the
    last-focused field parses that field's buffer and, when the handler
    returns, has called [onChange] exactly once with the parsed date paired
    with the other side's selected date, whether or not the date is valid, in
    range or overlapping; the default action is not prevented. *)
Theorem handleInputKeyDown_enter_commits_unchecked (h : Host) (props : Props.t)
    (opts : Options.t) (isSameTime : maybe Date -> maybe Date -> bool) (st : State.t)
    (e : KeyboardEvent) (boundary : Boundary) (st' : State.t) (called : list Callback)
    (prevented : bool) :
  which e = Keys.ENTER ->
  State.isOpen st = true ->
  State.lastFocusedField st = Some boundary ->
  handleInputKeyDown h props opts isSameTime st e = Some (st', called, prevented) ->
  called
  = [onChange
       (pairedWithOther st
          (parseDate h props
             (inputString (getStateKeysAndValuesForBoundary props st boundary)))
          boundary)]
  /\ prevented = false.
Proof.
  intros Hent Hopen Hlast. unfold handleInputKeyDown. cbv zeta.
  rewrite Hent, Hlast. change (Keys.ENTER =? Keys.TAB) with false.
  rewrite Z.eqb_refl. cbv iota.
  destruct boundary; simpl andb; cbv iota;
    match goal with
    | |- option_map _ ?r = _ -> _ => destruct r as [[st1 called1]|] eqn:Hres
    end; simpl; try discriminate;
    intros E; injection E as <- <- <-;
    destruct (handleDateRangePickerChange_open h props opts isSameTime st _ _ _ _
                Hopen Hres) as (_ & _ & -> & _);
    split; reflexivity.
Qed.

(** After day 20 in START, "10" is typed into END: typing reports nothing,
    Enter reports the overlapping range. *)
Lemma handleInputKeyDown_enter_commits_unchecked_witness :
  snd (handleInputChange Sample.host Sample.uncontrolled
         (handleInputFocus Sample.host Sample.uncontrolled Sample.startTyped END)
         "10" END) = []
  /\ exists st',
      handleInputKeyDown Sample.host Sample.uncontrolled Scenario.options
        Scenario.sameTime Sample.endTyped Scenario.enter
      = Some (st', [onChange (Some (Sample.day 20), Some (Sample.day 10))], false).
Proof.
  split; [reflexivity|].
  destruct (handleInputKeyDown Sample.host Sample.uncontrolled Scenario.options
              Scenario.sameTime Sample.endTyped Scenario.enter)
    as [[[st' called] prevented]|] eqn:Hres; [|discriminate Hres].
  destruct (handleInputKeyDown_enter_commits_unchecked Sample.host Sample.uncontrolled
              Scenario.options Scenario.sameTime Sample.endTyped Scenario.enter END
              st' called prevented eq_refl eq_refl eq_refl Hres) as [-> ->].
  exists st'. reflexivity.
Defined.

(** ** Sequences of interactions *)

Section Runs.

Variable h : Host.
Variable props : Props.t.
Variable opts : Options.t.
Variable isSameTime : maybe Date -> maybe Date -> bool.




Lemma handleDateRangePickerChange_controlled (st : State.t) (selectedRange : DateRange)
    (enter : bool) (st' : State.t) (called : list Callback) :
  isControlled props = true ->
  handleDateRangePickerChange h props opts isSameTime st selectedRange enter
  = Some (st', called) ->
  sameSelection st st'.
Proof.
  intros Hc. destruct (State.isOpen st) eqn:Hopen.
  - intros Hres.
    destruct (handleDateRangePickerChange_open h props opts isSameTime st selectedRange
                enter st' called Hopen Hres) as (l & _ & _ & ->).
    rewrite Hc. destruct st; split; reflexivity.
  - unfold handleDateRangePickerChange. rewrite Hopen. simpl.
    intros E. injection E as <- _. split; reflexivity.
Qed.

Lemma perform_controlled (st : State.t) (i : Interaction) (st' : State.t)
    (called : list Callback) :
  isControlled props = true ->
  perform h props opts isSameTime st i = Some (st', called) ->
  sameSelection st st'.
Proof.
  intros Hc. destruct i; simpl.
  - intros E. injection E as E.
    assert (Est : st' = fst (handleInputBlur h props st boundary)) by now rewrite E.
    rewrite Est. clear E Est.
    rewrite handleInputBlur_unfold, Hc.
    destruct (isInputEmpty _); [|destruct (isNextDateRangeValid _ _ _ _ _)];
      destruct st, boundary; split; reflexivity.
  - intros E. injection E as E.
    assert (Est : st' = fst (handleInputChange h props st text boundary))
      by now rewrite E.
    rewrite Est. clear E Est.
    unfold handleInputChange. cbv zeta. rewrite Hc.
    destruct (Nat.eqb _ _); [|destruct (isDateValidAndInRange _ _ _)];
      destruct st, boundary; split; reflexivity.
  - intros E. injection E as <- _. split; reflexivity.
  - intros E. injection E as <- _. destruct st, boundary; split; reflexivity.
  - destruct (handleInputKeyDown h props opts isSameTime st e) as [[[st1 c1] p1]|] eqn:Hk;
      [|discriminate].
    simpl. intros E. injection E as <- <-.
    revert Hk. unfold handleInputKeyDown. cbv zeta.
    destruct (which e =? Keys.TAB).
    + destruct (_ && _); [|destruct (_ && _)];
        intros E; injection E as <- _ _; destruct st; split; reflexivity.
    + destruct (_ && _); [|destruct (_ && _)].
      * destruct (handleDateRangePickerChange _ _ _ _ _ _ _) as [[st2 c2]|] eqn:Hp;
          [|discriminate].
        simpl. intros E. injection E as <- _ _.
        exact (handleDateRangePickerChange_controlled st _ _ _ _ Hc Hp).
      * destruct (handleDateRangePickerChange _ _ _ _ _ _ _) as [[st2 c2]|] eqn:Hp;
          [|discriminate].
        simpl. intros E. injection E as <- _ _.
        exact (handleDateRangePickerChange_controlled st _ _ _ _ Hc Hp).
      * intros E. injection E as <- _ _. split; reflexivity.
  - intros E. injection E as <- _. destruct st; split; reflexivity.
  - apply handleDateRangePickerChange_controlled, Hc.
  - intros E. injection E as <- _.
    unfold handleDateRangePickerHoverChange.
    destruct (negb (State.isOpen st)); [split; reflexivity|].
    destruct hoveredRange as [| |[hs he]]; destruct st; split; reflexivity.
  - intros E. injection E as <- _. destruct st; split; reflexivity.
Qed.

End Runs.



Lemma performAll_controlled (h : Host) (props : Props.t)
    (opts : Options.t) (isSameTime : maybe Date -> maybe Date -> bool)
    (steps : list Interaction) :
  isControlled props = true ->
  forall st st' called,
    performAll h props opts isSameTime st steps = Some (st', called) ->
    sameSelection st st'.
Proof.
  intros Hc. induction steps as [|i rest IH]; intros st st' called; simpl.
  - intros E. injection E as <- _. split; reflexivity.
  - destruct (perform h props opts isSameTime st i) as [[st1 c1]|] eqn:Hstep;
      [|discriminate].
    destruct (performAll h props opts isSameTime st1 rest) as [[st2 c2]|] eqn:Hrest;
      [|discriminate].
    intros E. injection E as <- _.
    destruct (perform_controlled h props opts isSameTime st i st1 c1 Hc Hstep) as [Hs He].
    destruct (IH st1 st2 c2 Hrest) as [Hs' He'].
    split; congruence.
Qed.

(** In controlled mode the component never writes its internal selection:
    whatever the sequence of interactions, [selectedStart] and [selectedEnd]
    are the ones it started with. *)
Theorem controlled_selection_is_never_written (h : Host) (props : Props.t)
    (opts : Options.t) (isSameTime : maybe Date -> maybe Date -> bool)
    (steps : list Interaction) (st st' : State.t) (called : list Callback) :
  isControlled props = true ->
  performAll h props opts isSameTime st steps = Some (st', called) ->
  State.selectedStart st' = State.selectedStart st
  /\ State.selectedEnd st' = State.selectedEnd st.
Proof.
  intros Hc Hrun.
  exact (performAll_controlled h props opts isSameTime steps Hc st st' called Hrun).
Qed.

(** Controlled with the range 20 to 30: typing 25 into START and clicking
    another range in the calendar leave the internal selection at 20 to 30. *)
Lemma controlled_selection_is_never_written_witness :
  let props := Sample.props (VRange (Some (Sample.day 20), Some (Sample.day 30))) in
  exists st' called,
    performAll Sample.host props Scenario.options Scenario.sameTime
      (reset Sample.host props)
      [ Focus START; Change START "25"; PickerChange (Some (Sample.day 1), None);
        Blur START ] = Some (st', called)
    /\ State.selectedStart st' = Some (Sample.day 20)
    /\ State.selectedEnd st' = Some (Sample.day 30).
Proof.
  intros props.
  destruct (performAll Sample.host props Scenario.options Scenario.sameTime
              (reset Sample.host props)
              [ Focus START; Change START "25"; PickerChange (Some (Sample.day 1), None);
                Blur START ]) as [[st' called]|] eqn:Hrun; [|discriminate Hrun].
  exists st', called. split; [reflexivity|].
  exact (controlled_selection_is_never_written Sample.host props Scenario.options
           Scenario.sameTime _ (reset Sample.host props) st' called eq_refl Hrun).
Defined.




(** ** Hovering the calendar *)

(** While a calendar day is hovered with the popover open, both fields
    display the hovered dates as formatted by the component (the empty string
    for a date that is unset, invalid or out of range), neither field is in the
    error state, and the selection is untouched. *)
Theorem hover_preview_is_displayed (h : Host) (props : Props.t) (st : State.t)
    (hoveredStart hoveredEnd : option Date) (hoveredBoundary : maybe Boundary) :
  State.isOpen st = true ->
  let hovered :=
    handleDateRangePickerHoverChange h props st (val (hoveredStart, hoveredEnd))
      hoveredBoundary in
  getInputDisplayString h props hovered START = formatDate h props hoveredStart
  /\ getInputDisplayString h props hovered END = formatDate h props hoveredEnd
  /\ isInputInErrorState h props hovered START = false
  /\ isInputInErrorState h props hovered END = false
  /\ State.selectedStart hovered = State.selectedStart st
  /\ State.selectedEnd hovered = State.selectedEnd st
  /\ State.wasLastFocusChangeDueToHover hovered = Some true.
Proof.
  intros Hopen hovered. subst hovered.
  unfold handleDateRangePickerHoverChange. rewrite Hopen. simpl negb. cbv iota.
  destruct st. repeat split.
Qed.

Lemma hover_preview_is_displayed_witness :
  getInputDisplayString Sample.host Sample.uncontrolled Sample.hovering START = "3"
  /\ getInputDisplayString Sample.host Sample.uncontrolled Sample.hovering END = "4".
Proof.
  destruct (hover_preview_is_displayed Sample.host Sample.uncontrolled
              (handleInputFocus Sample.host Sample.uncontrolled
                 (reset Sample.host Sample.uncontrolled) START)
              (Some (Sample.day 3)) (Some (Sample.day 4)) (val END) eq_refl)
    as (Hs & He & _).
  split; [exact Hs | exact He].
Defined.

(** A hover preview is undone when the pointer leaves.  After a hover, the
    focus event the hover causes on either field, and a null hover, the
    boundary to modify is the one from before the hover, focus is on END if
    that boundary is END and on START otherwise, both hover strings are null
    and the selection is untouched. *)
Theorem hover_preview_is_undone (h : Host) (props : Props.t) (st : State.t)
    (hoveredRange : DateRange) (hoveredBoundary : maybe Boundary) (focused : Boundary)
    (leftRange : maybe DateRange) (leftBoundary : maybe Boundary) :
  State.isOpen st = true ->
  isNullish leftRange = true ->
  let hovered :=
    handleDateRangePickerHoverChange h props st (val hoveredRange) hoveredBoundary in
  let refocused := handleInputFocus h props hovered focused in
  let left := handleDateRangePickerHoverChange h props refocused leftRange leftBoundary in
  State.boundaryToModify left = State.boundaryToModify st
  /\ State.isEndInputFocused left
     = match State.boundaryToModify st with Some END => true | _ => false end
  /\ State.isStartInputFocused left = negb (State.isEndInputFocused left)
  /\ State.startHoverString left = null
  /\ State.endHoverString left = null
  /\ State.selectedStart left = State.selectedStart st
  /\ State.selectedEnd left = State.selectedEnd st
  /\ State.isOpen left = true.
Proof.
  intros Hopen Hnull hovered refocused left. subst left refocused hovered.
  destruct st as [? btm ? ? ? ? ? ? ? ? ? ? ? ? ? ?]. simpl in Hopen. subst.
  destruct hoveredRange as [hs he].
  destruct leftRange as [| |r]; try discriminate Hnull;
    destruct focused, btm as [[|]|]; repeat split.
Qed.

Lemma hover_preview_is_undone_witness :
  let focused :=
    handleInputFocus Sample.host Sample.uncontrolled
      (reset Sample.host Sample.uncontrolled) START in
  let left :=
    handleDateRangePickerHoverChange Sample.host Sample.uncontrolled
      (handleInputFocus Sample.host Sample.uncontrolled Sample.hovering END)
      null undefined in
  State.boundaryToModify left = Some START
  /\ State.isStartInputFocused left = true
  /\ State.isEndInputFocused left = false.
Proof.
  intros focused left.
  destruct (hover_preview_is_undone Sample.host Sample.uncontrolled focused
              (Some (Sample.day 3), Some (Sample.day 4)) (val END) END null undefined
              eq_refl eq_refl) as (Hb & He & Hs & _).
  split; [exact Hb|]. split; [|exact He].
  rewrite He in Hs. exact Hs.
Defined.

(** ** What the user sees while editing *)

Lemma handleInputChange_nonempty_values (h : Host) (props : Props.t) (st : State.t)
    (text : string) (boundary : Boundary) :
  text <> "" ->
  let st' := fst (handleInputChange h props st text boundary) in
  hoverString (getStateKeysAndValuesForBoundary props st' boundary) = null
  /\ inputString (getStateKeysAndValuesForBoundary props st' boundary) = val text
  /\ isInputFocused (getStateKeysAndValuesForBoundary props st' boundary)
     = isInputFocused (getStateKeysAndValuesForBoundary props st boundary)
  /\ otherSelected st' boundary = otherSelected st boundary
  /\ (isControlled props = false ->
      isDateValidAndInRange h props (parseDate h props (val text)) = true ->
      selectedValue (getStateKeysAndValuesForBoundary props st' boundary)
      = parseDate h props (val text)).
Proof.
  intros Hne. unfold handleInputChange. cbv zeta. rewrite (length_nonempty text Hne).
  destruct (isDateValidAndInRange h props (parseDate h props (val text)));
    destruct (isControlled props), st, boundary; repeat split; discriminate.
Qed.

(** Focusing a field puts its date into view.  Without a hover string, the
    focused field displays the text its buffer was seeded with from the
    selected date, never the overlap message: for a valid, in-range date that
    is the text [formatDate] gives, also when the date overlaps the other side;
    nothing is displayed when no date is selected.  The popover is open
    afterwards. *)
Theorem focus_reveals_selected_date (h : Host) (props : Props.t) (st : State.t)
    (boundary : Boundary) :
  let values := getStateKeysAndValuesForBoundary props st boundary in
  let st' := handleInputFocus h props st boundary in
  isNullish (hoverString values) = true ->
  State.isOpen st' = true
  /\ getInputDisplayString h props st' boundary
     = getFormattedDateString h (ofNullable (selectedValue values)) props true
  /\ (forall d, selectedValue values = Some d ->
      isDateValidAndInRange h props (Some d) = true ->
      getInputDisplayString h props st' boundary
      = Props.formatDate props d (Props.locale props))
  /\ (selectedValue values = None -> getInputDisplayString h props st' boundary = "").
Proof.
  intros values st' Hh.
  destruct (handleInputFocus_values h props st boundary)
    as (Hbuf & Hfoc & Hhov & _ & _ & Hopen & _).
  fold st' in Hbuf, Hfoc, Hhov, Hopen. fold values in Hbuf, Hhov.
  split; [exact Hopen|].
  assert (Hdisplay : getInputDisplayString h props st' boundary
                     = getFormattedDateString h (ofNullable (selectedValue values))
                         props true).
  { unfold getInputDisplayString. cbv zeta. rewrite Hhov, Hfoc, Hbuf.
    now destruct (hoverString values). }
  rewrite Hdisplay. split; [reflexivity|]. split.
  - intros d -> Hv. unfold isDateValidAndInRange in Hv.
    apply andb_true_iff in Hv as [Hv _].
    unfold getFormattedDateString. simpl ofNullable. cbv iota. now rewrite Hv.
  - intros ->. reflexivity.
Qed.

(** END holds day 10 against START at day 20: left, the END field reads
    "Overlapping dates"; focused again, it reads "10". *)
Lemma focus_reveals_selected_date_witness :
  let left := fst (handleInputBlur Sample.host Sample.uncontrolled Sample.endTyped END) in
  getInputDisplayString Sample.host Sample.uncontrolled left END = "Overlapping dates"
  /\ getInputDisplayString Sample.host Sample.uncontrolled
       (handleInputFocus Sample.host Sample.uncontrolled left END) END = "10".
Proof.
  intros left. split; [reflexivity|].
  destruct (focus_reveals_selected_date Sample.host Sample.uncontrolled left END eq_refl)
    as (_ & _ & Hvalid & _).
  exact (Hvalid (Sample.day 10) eq_refl eq_refl).
Defined.

(** While a focused field is edited it displays exactly the typed text, and it
    is in the error state exactly when the typed text parses to a date that is
    invalid or out of range, or, for the END field, overlaps the selected
    start.  Text that parses to no date is not flagged. *)
Theorem typing_feedback (h : Host) (props : Props.t) (st : State.t)
    (boundary : Boundary) (text : string) :
  text <> "" ->
  let st' :=
    fst (handleInputChange h props (handleInputFocus h props st boundary) text boundary) in
  getInputDisplayString h props st' boundary = text
  /\ isInputInErrorState h props st' boundary
     = match parseDate h props (val text) with
       | None => false
       | Some d =>
           negb (isDateValidAndInRange h props (Some d))
           || match boundary with
              | START => false
              | END => doBoundaryDatesOverlap h props st (Some d) END
              end
       end.
Proof.
  intros Hne st'.
  destruct (handleInputFocus_values h props st boundary)
    as (_ & Hfoc & _ & Hs & He & _).
  destruct (handleInputChange_nonempty_values h props
              (handleInputFocus h props st boundary) text boundary Hne)
    as (Hhov & Hbuf & Hfoc' & Hother & _).
  fold st' in Hhov, Hbuf, Hfoc', Hother. rewrite Hfoc in Hfoc'.
  split.
  - unfold getInputDisplayString. cbv zeta. now rewrite Hhov, Hfoc', Hbuf.
  - unfold isInputInErrorState. cbv zeta. rewrite Hhov, Hfoc', Hbuf.
    unfold isInputEmpty. rewrite (length_nonempty text Hne). simpl.
    destruct (parseDate h props (val text)) as [d|]; [|reflexivity].
    f_equal. destruct boundary; [reflexivity|].
    unfold doesEndBoundaryOverlapStartBoundary, doBoundaryDatesOverlap. cbv zeta.
    rewrite !selectedValue_other. rewrite Hother. unfold otherSelected.
    now rewrite Hs.
Qed.

(** "500" typed into START is displayed and flagged; "someday", which the
    parser rejects, is displayed and not flagged. *)
Lemma typing_feedback_witness :
  let typed text :=
    fst (handleInputChange Sample.host Sample.uncontrolled
           (handleInputFocus Sample.host Sample.uncontrolled Scenario.ranged START)
           text START) in
  getInputDisplayString Sample.host Sample.uncontrolled (typed "500") START = "500"
  /\ isInputInErrorState Sample.host Sample.uncontrolled (typed "500") START = true
  /\ isInputInErrorState Sample.host Sample.uncontrolled (typed "someday") START = false.
Proof.
  intros typed.
  assert (H500 : "500" <> "") by discriminate.
  assert (Hsome : "someday" <> "") by discriminate.
  destruct (typing_feedback Sample.host Sample.uncontrolled Scenario.ranged START "500"
              H500) as [Hd He].
  destruct (typing_feedback Sample.host Sample.uncontrolled Scenario.ranged START
              "someday" Hsome) as [_ He'].
  split; [exact Hd|]. split; [exact He | exact He'].
Defined.

(** Live preview.  In uncontrolled mode a valid, in-range date typed into
    START is at once the start of the range handed to the calendar; the end of
    that range is dropped to the fallback when the typed start overlaps the
    selected end, and is otherwise the selected end if it is valid and in
    range. *)
Theorem typed_start_is_previewed (h : Host) (props : Props.t) (st : State.t)
    (text : string) (d : Date) (fallbackRange : option NonNullDateRange) :
  isControlled props = false ->
  text <> "" ->
  parseDate h props (val text) = Some d ->
  isDateValidAndInRange h props (Some d) = true ->
  getSelectedRange h props (fst (handleInputChange h props st text START)) fallbackRange
  = Some
      (val d,
       if doBoundaryDatesOverlap h props st (Some d) START
       then fallbackBound fallbackRange END
       else if isDateValidAndInRange h props (State.selectedEnd st)
            then ofNullable (State.selectedEnd st)
            else fallbackBound fallbackRange END).
Proof.
  intros Hc Hne Hparse Hvalid.
  destruct (handleInputChange_nonempty_values h props st text START Hne)
    as (_ & _ & _ & Hother & Hsel).
  rewrite Hparse in Hsel. specialize (Hsel Hc Hvalid).
  set (st' := fst (handleInputChange h props st text START)) in *.
  simpl in Hother, Hsel.
  rewrite (getSelectedRange_of_range h props st' fallbackRange (Some d)
             (State.selectedEnd st)) by now rewrite Hc, Hsel, Hother.
  rewrite Hvalid. simpl ofNullable.
  assert (Hov : doBoundaryDatesOverlap h props st' (Some d) START
                = doBoundaryDatesOverlap h props st (Some d) START).
  { unfold doBoundaryDatesOverlap. cbv zeta. rewrite !selectedValue_other.
    unfold otherSelected. now rewrite Hother. }
  now rewrite Hov.
Qed.

(** With END at day 30, typing "25" into START shows 25 to 30 in the calendar;
    typing "35" shows a range that starts on day 35 and has no end. *)
Lemma typed_start_is_previewed_witness :
  getSelectedRange Sample.host Sample.uncontrolled
    (fst (handleInputChange Sample.host Sample.uncontrolled Scenario.rangedFocused
            "25" START)) None
  = Some (val (Sample.day 25), val (Sample.day 30))
  /\ getSelectedRange Sample.host Sample.uncontrolled
       (fst (handleInputChange Sample.host Sample.uncontrolled Scenario.rangedFocused
               "35" START)) None
     = Some (val (Sample.day 35), undefined).
Proof.
  assert (H25 : "25" <> "") by discriminate.
  assert (H35 : "35" <> "") by discriminate.
  split.
  - exact (typed_start_is_previewed Sample.host Sample.uncontrolled Scenario.rangedFocused
             "25" (Sample.day 25) None eq_refl H25 eq_refl eq_refl).
  - exact (typed_start_is_previewed Sample.host Sample.uncontrolled Scenario.rangedFocused
             "35" (Sample.day 35) None eq_refl H35 eq_refl eq_refl).
Defined.
